(** * seqs: packet buffers, the TCP socket slot and the DHCP server

    A shallow embedding of the two Go files of the repository:

    - package [stack]: [TCPPacket] (header geometry, payload views) and
      [tcpSocket] (one-slot backpressure, [HandleEth] dispatch);
    - package [stacks]: [parseDHCP] and [DHCPServer.HandleUDP].

    Go values are modelled as follows.  An [int] and every unsigned field is a
    [Z] (fixed-width arithmetic is wrapped explicitly where the source computes
    in a fixed-width type).  A byte is a [Z] in [0, 256).  A [[]byte] is a
    [slice]: the backing storage from the slice's first element up to its
    capacity, together with its length.  A run-time panic is the outcome
    [Panics].  The map [hosts] is a [gmap].  Everything the two files import
    from packages that are not at hand (the header codec [eth], the control
    block of [seqs], Go's [time]) is a field of a type class, so every theorem
    holds for every implementation of it. *)

From Stdlib Require Import ZArith String Lia.
From stdpp Require Import base option list gmap.

Local Open Scope Z_scope.

(** ** Outcomes of a Go call *)

(** A call returns, panics, or (for the one loop modelled with fuel) is cut
    short; [parseDHCP_finishes] below shows the last never happens. *)
Inductive outcome (A : Type) : Type :=
| Returns (a : A)
| Panics
| Unfinished.
Arguments Returns {A} a.
Arguments Panics {A}.
Arguments Unfinished {A}.

Definition outcome_bind {A B : Type} (f : A -> outcome B) (m : outcome A) : outcome B :=
  match m with
  | Returns a => f a
  | Panics => Panics
  | Unfinished => Unfinished
  end.

#[export] Instance outcome_mbind : MBind outcome := @outcome_bind.
#[export] Instance outcome_mret : MRet outcome := @Returns.
#[export] Instance outcome_fmap : FMap outcome := fun A B f m =>
  match m with
  | Returns a => Returns (f a)
  | Panics => Panics
  | Unfinished => Unfinished
  end.

(** Go's [error]: [None] is [nil]. *)
Definition error : Type := string.

(** ** Byte slices *)

(** [Slice st n]: [st] is the backing array from the slice's first element to
    the end of its capacity, [n] its length ([0 <= n <= length st]).
    [SliceNil] is the nil slice. *)
Inductive slice : Type :=
| SliceNil
| Slice (store : list Z) (n : Z).

Definition store_of (s : slice) : list Z :=
  match s with SliceNil => [] | Slice st _ => st end.

Definition len (s : slice) : Z :=
  match s with SliceNil => 0 | Slice _ n => n end.

Definition cap (s : slice) : Z := Z.of_nat (length (store_of s)).

(** The elements a [range] over the slice sees. *)
Definition elems (s : slice) : list Z := take (Z.to_nat (len s)) (store_of s).

Definition wf_slice (s : slice) : Prop := 0 <= len s <= cap s.

(** Every element of the backing storage is a byte. *)
Definition bytes_ok (s : slice) : Prop := Forall (fun b => 0 <= b < 256) (store_of s).

(** [s[i]]: bounds-checked against the length. *)
Definition index (s : slice) (i : Z) : outcome Z :=
  if (0 <=? i) && (i <? len s)
  then match store_of s !! Z.to_nat i with
       | Some b => Returns b
       | None => Panics
       end
  else Panics.

(** [s[a:b]]: Go checks [0 <= a <= b <= cap(s)], not the length. *)
Definition reslice (s : slice) (a b : Z) : outcome slice :=
  if (0 <=? a) && (a <=? b) && (b <=? cap s)
  then Returns (match s with
                | SliceNil => SliceNil
                | Slice st _ => Slice (drop (Z.to_nat a) st) (b - a)
                end)
  else Panics.

(** [arr[a:b]] on an array: checked against the array's length. *)
Definition array_slice (arr : list Z) (a b : Z) : outcome slice :=
  if (0 <=? a) && (a <=? b) && (b <=? Z.of_nat (length arr))
  then Returns (Slice (drop (Z.to_nat a) arr) (b - a))
  else Panics.

(** [arr[:b]]. *)
Definition array_prefix (arr : list Z) (b : Z) : outcome slice := array_slice arr 0 b.

(** Overwrite [st] from position [off] on with [w], keeping the length of
    [st]: what writing [w] through a view starting at [off] does. *)
Definition overwrite (st : list Z) (off : nat) (w : list Z) : list Z :=
  take off st ++ take (length st - off)%nat w ++ drop (off + length w)%nat st.

(** Fixed-width wrap-around. *)
Definition wrap8 (z : Z) : Z := z mod 256.
Definition wrap16 (z : Z) : Z := z mod 65536.

(** ** Go's [time.Time], as far as the socket uses it *)

Class TimeAPI := {
  Time : Type;
  Time_eq_dec :: EqDecision Time;   (* struct comparison, [==] and [!=] *)
  zeroTime : Time;                  (* [time.Time{}] *)
  IsZero : Time -> bool;            (* [t.IsZero()] *)
}.

(** ** Header structs of package [eth]

    The fields are the ones the two files read or assign. *)

Record EthernetHeader := {
  Destination : list Z;       (* [6]byte *)
  Source : list Z;            (* [6]byte *)
  SizeOrEtherType : Z;
}.

Record IPv4Header := {
  VersionAndIHL : Z;
  ToS : Z;
  TotalLength : Z;            (* uint16 *)
  ID : Z;
  Flags : Z;
  TTL : Z;
  Protocol : Z;
  Checksum : Z;
  IPSource : list Z;          (* [4]byte *)
  IPDestination : list Z;     (* [4]byte *)
}.

Record UDPHeader := {
  SourcePort : Z;
  DestinationPort : Z;
  Length : Z;
  UDPChecksum : Z;
}.

(** [eth.DHCPHeader]: the two address fields the server touches; the other
    fields travel along untouched. *)
Record DHCPHeader := {
  YIAddr : list Z;            (* [4]byte *)
  SIAddr : list Z;            (* [4]byte *)
  OtherFields : list Z;
}.

(** ** Package [seqs]: the TCP control block *)

Class SeqsAPI := {
  Segment : Type;
  ControlBlock : Type;
  (* [tcb.Recv(seg) error]: may update the control block *)
  Recv : ControlBlock -> Segment -> ControlBlock * option error;
  (* [tcb.PendingSegment(payloadLen) (Segment, bool)] *)
  PendingSegment : ControlBlock -> Z -> Segment * bool;
}.

(** ** Package [eth]: sizes and the header codec *)

Class EthAPI `{SeqsAPI} := {
  SizeEthernetHeader : Z;
  SizeIPv4Header : Z;
  SizeTCPHeader : Z;
  SizeUDPHeader : Z;
  SizeDHCPHeader : Z;
  TCPHeader : Type;
  IHL : IPv4Header -> Z;                       (* a uint8 *)
  OffsetInBytes : TCPHeader -> Z;
  TCPSegment : TCPHeader -> Z -> Segment;      (* [tcp.Segment(payloadLen)] *)
  CalculateChecksum : IPv4Header -> Z;
  CalculateChecksumIPv4 : UDPHeader -> IPv4Header -> list Z -> Z;
  BroadcastHW6 : list Z;
  EtherTypeIPv4 : Z;
  zeroOtherFields : list Z;                    (* the other fields of [eth.DHCPHeader{}] *)
  DecodeDHCPHeader : list Z -> DHCPHeader;
  (* [hdr.Put(b)]: the bytes of [b] after the call *)
  DHCPHeaderPut : DHCPHeader -> list Z -> list Z;
  DHCP_MessageType : Z;
  DHCP_ParameterRequestList : Z;
  DHCP_RequestedIPaddress : Z;
}.

(** ** Package [stack]: declarations outside the file at hand *)

Class StackDecls `{TimeAPI} := {
  forcedTime : Time;     (* the package variable marking a forced response *)
  MTU : Z;               (* the constant [_MTU] *)
}.

(** * Package [stack]: [TCPPacket] and [tcpSocket] *)

Module stack.
Section defs.
Context `{TimeAPI} `{EthAPI} `{!StackDecls}.

Definition tcpMTU : Z := MTU - SizeEthernetHeader - SizeIPv4Header - SizeTCPHeader.

(** [data] is the array [[tcpMTU]byte]: IP options, TCP options, payload. *)
Record TCPPacket := {
  Rx : Time;
  Eth : EthernetHeader;
  IP : IPv4Header;
  TCP : TCPHeader;
  data : list Z;
}.

Definition set_Rx (p : TCPPacket) (t : Time) : TCPPacket :=
  {| Rx := t; Eth := Eth p; IP := IP p; TCP := TCP p; data := data p |}.

(** The socket's handler, [func(response []byte, self *TCPPacket) (int, error)]:
    it may write the response buffer and the packet it is handed. *)
Record HandlerResult := {
  h_n : Z;
  h_err : option error;
  h_response : slice;
  h_self : TCPPacket;
}.

Definition Handler : Type := slice -> TCPPacket -> HandlerResult.

(** [packets] is the one-element array [[1]TCPPacket]; [handler = None] is a
    nil handler. *)
Record tcpSocket := {
  LastRx : Time;
  handler : option Handler;
  Port : Z;
  packets : TCPPacket;
  tcb : ControlBlock;
}.

Definition set_packets (u : tcpSocket) (p : TCPPacket) : tcpSocket :=
  {| LastRx := LastRx u; handler := handler u; Port := Port u; packets := p; tcb := tcb u |}.

Definition set_tcb (u : tcpSocket) (c : ControlBlock) : tcpSocket :=
  {| LastRx := LastRx u; handler := handler u; Port := Port u; packets := packets u; tcb := c |}.

(** [func (u *TCPPacket) HasPacket() bool] *)
Definition HasPacket (u : TCPPacket) : bool :=
  negb (bool_decide (Rx u = forcedTime)) && negb (IsZero (Rx u)).

(** [func (p *TCPPacket) dataPtrs() (payloadStart, payloadEnd, tcpOptStart int)].
    [4*p.IP.IHL()] is a uint8 product. *)
Definition dataPtrs (p : TCPPacket) : Z * Z * Z :=
  let tcpOptStart := wrap8 (4 * IHL (IP p)) - SizeIPv4Header in
  let payloadStart := tcpOptStart + OffsetInBytes (TCP p) - SizeTCPHeader in
  let payloadEnd := TotalLength (IP p) - tcpOptStart - SizeTCPHeader - SizeIPv4Header in
  if (payloadStart <? 0) || (payloadEnd <? 0) || (tcpOptStart <? 0)
     || (payloadStart >? payloadEnd)
     || (payloadEnd >? Z.of_nat (length (data p))) || (tcpOptStart >? payloadStart)
  then (-1, -1, -1)
  else (payloadStart, payloadEnd, tcpOptStart).

(** [func (p *TCPPacket) Payload() []byte] *)
Definition Payload (p : TCPPacket) : outcome slice :=
  if negb (HasPacket p) then Returns SliceNil
  else
    let '(payloadStart, payloadEnd, _) := dataPtrs p in
    if payloadStart <? 0 then Returns SliceNil
    else array_slice (data p) payloadStart payloadEnd.

(** [func (p *TCPPacket) TCPOptions() []byte] *)
Definition TCPOptions (p : TCPPacket) : outcome slice :=
  if negb (HasPacket p) then Returns SliceNil
  else
    let '(payloadStart, _, tcpOptStart) := dataPtrs p in
    if payloadStart <? 0 then Returns SliceNil
    else array_slice (data p) tcpOptStart payloadStart.

(** [func (p *TCPPacket) IPOptions() []byte] *)
Definition IPOptions (p : TCPPacket) : outcome slice :=
  if negb (HasPacket p) then Returns SliceNil
  else
    let '(_, _, tcpOpts) := dataPtrs p in
    if tcpOpts <? 0 then Returns SliceNil
    else array_prefix (data p) tcpOpts.

(** [func (u *tcpSocket) IsPendingHandling() bool] *)
Definition IsPendingHandling (u : tcpSocket) : bool :=
  negb (Port u =? 0) && negb (IsZero (Rx (packets u))).

(** [func (u *tcpSocket) NeedsHandling() bool] *)
Definition NeedsHandling (u : tcpSocket) : bool := IsPendingHandling u.

(** [func (s *tcpSocket) pending() (p uint32)] *)
Definition pending (s : tcpSocket) : Z :=
  if HasPacket (packets s) then 1 else 0.

(** [func (u *tcpSocket) Open(port uint16, h func(...))] *)
Definition Open (u : tcpSocket) (port : Z) (h : option Handler) : outcome tcpSocket :=
  match h with
  | None => Panics
  | Some _ =>
      if port =? 0 then Panics
      else Returns {| LastRx := LastRx u; handler := h; Port := port;
                      packets := set_Rx (packets u) zeroTime; tcb := tcb u |}
  end.

(** [func (u *tcpSocket) Close()] *)
Definition Close (u : tcpSocket) : tcpSocket :=
  {| LastRx := LastRx u; handler := None; Port := 0; packets := packets u; tcb := tcb u |}.

(** [func (u *tcpSocket) forceResponse() (added bool)] *)
Definition forceResponse (u : tcpSocket) : bool * tcpSocket :=
  if negb (IsPendingHandling u)
  then (true, set_packets u (set_Rx (packets u) forcedTime))
  else (false, u).

(** What one call of [HandleEth] leaves behind: the two results, the response
    buffer, the socket, and the handler invocations it made, in order, each
    with the arguments it was given. *)
Record EthResult := {
  res_n : Z;
  res_err : option error;
  res_dst : slice;
  res_sock : tcpSocket;
  res_calls : list (slice * TCPPacket);
}.

(** [func (u *tcpSocket) HandleEth(dst []byte) (n int, err error)] *)
Definition HandleEth (u : tcpSocket) (dst : slice) : outcome EthResult :=
  match handler u with
  | None => Panics
  | Some h =>
      let packet := packets u in
      if HasPacket packet then
        payload ← Payload packet;
        let incoming := TCPSegment (TCP packet) (len payload) in
        let '(tcb1, err) := Recv (tcb u) incoming in
        match err with
        | Some e =>
            Returns {| res_n := 0; res_err := Some e; res_dst := dst;
                       res_sock := set_tcb u tcb1; res_calls := [] |}
        | None =>
            let '(_, ok) := PendingSegment tcb1 0 in
            if ok then
              let r := h dst packet in
              Returns {| res_n := h_n r; res_err := h_err r; res_dst := h_response r;
                         res_sock := set_packets (set_tcb u tcb1) (set_Rx (h_self r) zeroTime);
                         res_calls := [(dst, packet)] |}
            else
              Returns {| res_n := 0; res_err := None; res_dst := dst;
                         res_sock := set_packets (set_tcb u tcb1) (set_Rx packet zeroTime);
                         res_calls := [] |}
        end
      else
        let r := h dst packet in
        Returns {| res_n := h_n r; res_err := h_err r; res_dst := h_response r;
                   res_sock := set_packets u (set_Rx (h_self r) zeroTime);
                   res_calls := [(dst, packet)] |}
  end.

End defs.
End stack.

(** * Package [stacks]: the DHCP server *)

Module stacks.

(** Go's [netip.Addr]: the zero [Addr], an IPv4 address (4 bytes) or an IPv6
    address (16 bytes). *)
Inductive Addr : Type :=
| AddrZero
| AddrV4 (b : list Z)
| AddrV6 (b : list Z).

(** [netip.AddrFrom4] *)
Definition AddrFrom4 (b : list Z) : Addr := AddrV4 b.

(** [ip.Is4In6()]: an IPv6 address with the prefix [::ffff:0:0/96]. *)
Definition Is4In6 (b : list Z) : bool :=
  bool_decide (take 12 b = replicate 10 0 ++ [255; 255]).

(** [ip.As4()]: per its documentation, it panics on the zero [Addr] and on an
    IPv6 address that is not IPv4-mapped; [0.0.0.0] is not the zero [Addr]. *)
Definition As4 (ip : Addr) : outcome (list Z) :=
  match ip with
  | AddrZero => Panics
  | AddrV4 b => Returns b
  | AddrV6 b => if Is4In6 b then Returns (drop 12 b) else Panics
  end.

Record dhcpclient := {
  addr : Addr;
  state : Z;                 (* uint8 *)
  port : Z;                  (* uint16 *)
  requestlist : list Z;      (* [10]byte *)
}.

(** The zero value [dhcpclient{}], which a map lookup yields for a missing key. *)
Definition dhcpclient_zero : dhcpclient :=
  {| addr := AddrZero; state := 0; port := 0; requestlist := replicate 10 0 |}.

Record dhcpOption := {
  Opt : Z;
  Data : slice;
}.

Record DHCPServer := {
  mac : list Z;              (* [6]byte *)
  nextAddr : Addr;
  siaddr : Addr;
  sport : Z;                 (* the field [port] *)
  hosts : gmap (list Z) dhcpclient;
}.

(** [NewDHCPServer] *)
Definition NewDHCPServer (port : Z) (mac : list Z) (siaddr : Addr) : DHCPServer :=
  {| mac := mac; nextAddr := AddrZero; siaddr := siaddr; sport := port; hosts := ∅ |}.

Definition set_hosts (d : DHCPServer) (h : gmap (list Z) dhcpclient) : DHCPServer :=
  {| mac := mac d; nextAddr := nextAddr d; siaddr := siaddr d; sport := sport d; hosts := h |}.

Section defs.
Context `{TimeAPI} `{EthAPI}.

(** Modelled from the spec: the type [UDPPacket] is declared outside the files
    at hand.  It is the spec's PacketBuffer for UDP: a receive timestamp, the
    three decoded headers, and the data region. *)
Record UDPPacket := {
  Rx : Time;
  Eth : EthernetHeader;
  IP : IPv4Header;
  UDP : UDPHeader;
  data : list Z;
}.

(** Declarations of package [stacks] outside the files at hand. *)
Class StacksDecls := {
  dhcpStateNone : Z;
  dhcpStateWaitOffer : Z;
  prand16 : Z -> Z;
  HasPacket : UDPPacket -> bool;              (* [packet.HasPacket()] *)
  Payload : UDPPacket -> slice;               (* [packet.Payload()] *)
  (* [packet.PutHeaders(b)]: the bytes of [b] after the call *)
  PutHeaders : UDPPacket -> list Z -> list Z;
}.
Context `{!StacksDecls}.

Definition sizeSName : Z := 64.
Definition sizeFILE : Z := 128.
Definition sizeOptions : Z := 312.
Definition dhcpOffset : Z := SizeEthernetHeader + SizeIPv4Header + SizeUDPHeader.
Definition optionsStart : Z := dhcpOffset + SizeDHCPHeader + sizeSName + sizeFILE.
Definition sizeDHCPTotal : Z := SizeDHCPHeader + sizeSName + sizeFILE + sizeOptions.

(** [var hdr eth.DHCPHeader] *)
Definition DHCPHeader_zero : DHCPHeader :=
  {| YIAddr := [0; 0; 0; 0]; SIAddr := [0; 0; 0; 0]; OtherFields := zeroOtherFields |}.

(** The option loop of [parseDHCP] (lines 62-73), from position [ptr] with the
    callback's captured variables in [st].  One unit of [fuel] per iteration. *)
Fixpoint scanOptions {S : Type} (fn : dhcpOption -> S -> outcome (S * option error))
    (fuel : nat) (incpayload : slice) (ptr : Z) (st : S) : outcome (S * option error) :=
  match fuel with
  | O => Unfinished
  | Datatypes.S fuel' =>
      if ptr + 1 <? len incpayload then
        lenByte ← index incpayload (ptr + 1);
        if lenByte <? len incpayload then
          tag ← index incpayload ptr;
          if tag =? 255 then Returns (st, None)
          else
            let optlen := lenByte in
            optionData ← reslice incpayload (ptr + 2) (ptr + 2 + optlen);
            r ← fn {| Opt := tag; Data := optionData |} st;
            match r with
            | (st', Some e) => Returns (st', Some e)
            | (st', None) => scanOptions fn fuel' incpayload (ptr + (optlen + 2)) st'
            end
        else Returns (st, None)
      else Returns (st, None)
  end.

(** [func parseDHCP(incpayload []byte, fn func(opt dhcpOption) error)
    (eth.DHCPHeader, error)]; [fn = None] is a nil callback.  The third
    component is what the callback has made of its captured variables. *)
Definition parseDHCP {S : Type} (incpayload : slice)
    (fn : option (dhcpOption -> S -> outcome (S * option error))) (st : S)
  : outcome (DHCPHeader * option error * S) :=
  if len incpayload <? SizeDHCPHeader
  then Returns (DHCPHeader_zero, Some "short payload to parse DHCP"%string, st)
  else
    match fn with
    | None => Returns (DHCPHeader_zero, Some "nil function to parse DHCP"%string, st)
    | Some f =>
        let hdr := DecodeDHCPHeader (elems incpayload) in
        let ptr := SizeDHCPHeader + sizeSName + sizeFILE + 4 in
        if ptr >=? len incpayload
        then Returns (hdr, Some "short payload to parse DHCP options"%string, st)
        else
          r ← scanOptions f (Datatypes.S (Z.to_nat (len incpayload))) incpayload ptr st;
          Returns (hdr, r.2, r.1)
    end.

(** [func (d *DHCPServer) next(requested [4]byte) [4]byte] *)
Definition next (d : DHCPServer) (requested : list Z) : list Z :=
  if bool_decide (requested <> [0; 0; 0; 0]) then requested else [192; 168; 1; 2].

Definition set_requestlist (c : dhcpclient) (l : list Z) : dhcpclient :=
  {| addr := addr c; state := state c; port := port c; requestlist := l |}.

Definition set_addr (c : dhcpclient) (a : Addr) : dhcpclient :=
  {| addr := a; state := state c; port := port c; requestlist := requestlist c |}.

(** The closure [HandleUDP] passes to [parseDHCP] (lines 105-120).  Its
    captured variables are [client] and [msgType]. *)
Definition visitOption (opt : dhcpOption) (st : dhcpclient * Z)
  : outcome ((dhcpclient * Z) * option error) :=
  let '(client, msgType) := st in
  if Opt opt =? DHCP_MessageType then
    if len (Data opt) =? 1
    then b ← index (Data opt) 0; Returns ((client, b), None)
    else Returns (st, None)
  else if Opt opt =? DHCP_ParameterRequestList then
    Returns ((set_requestlist client (overwrite (replicate 10 0) 0 (elems (Data opt))), msgType),
             None)
  else if Opt opt =? DHCP_RequestedIPaddress then
    if (len (Data opt) =? 4) && (state client =? dhcpStateNone)
    then Returns ((set_addr client (AddrFrom4 (elems (Data opt))), msgType), None)
    else Returns (st, None)
  else Returns (st, None).

(** Modelled from the spec: [encodeDHCPOption] is declared outside the files at
    hand.  It writes the option as tag, length, data from [dst[0]] on and
    returns the number of bytes written.  The result here is those bytes and
    their count; a destination too short for them is a panic. *)
Definition encodeDHCPOption (dst : slice) (opt : dhcpOption) : outcome (list Z * Z) :=
  if len dst <? len (Data opt) + 2 then Panics
  else Returns (Opt opt :: wrap8 (len (Data opt)) :: elems (Data opt), 2 + len (Data opt)).

(** Writing [w] into [s] from index [off] on (through a view [s[off:]]). *)
Definition write_at (s : slice) (off : Z) (w : list Z) : slice :=
  match s with
  | SliceNil => SliceNil
  | Slice st n => Slice (overwrite st (Z.to_nat off) w) n
  end.

(** [for i := from; i < len(resp); i++ { resp[i] = 0 }] *)
Definition zeroFrom (resp : slice) (from : Z) : outcome slice :=
  if from <? len resp then
    if from <? 0 then Panics
    else Returns (write_at resp from (replicate (Z.to_nat (len resp - from)) 0))
  else Returns resp.

(** [binary.BigEndian.PutUint32(resp[ptr:], v)] *)
Definition PutUint32At (resp : slice) (ptr : Z) (v : Z) : outcome slice :=
  b ← reslice resp ptr (len resp);
  if len b <? 4 then Panics
  else Returns (write_at resp ptr
                  [Z.land (Z.shiftr v 24) 255; Z.land (Z.shiftr v 16) 255;
                   Z.land (Z.shiftr v 8) 255; Z.land v 255]).

(** [resp[ptr] = b] *)
Definition storeByte (resp : slice) (ptr : Z) (b : Z) : outcome slice :=
  if (0 <=? ptr) && (ptr <? len resp) then Returns (write_at resp ptr [b]) else Panics.

(** [for _, opt := range Options { ptr += encodeDHCPOption(resp[ptr:], opt) }] *)
Fixpoint encodeOptions (resp : slice) (ptr : Z) (Options : list dhcpOption)
  : outcome (slice * Z) :=
  match Options with
  | [] => Returns (resp, ptr)
  | opt :: rest =>
      dst ← reslice resp ptr (len resp);
      r ← encodeDHCPOption dst opt;
      encodeOptions (write_at resp ptr r.1) (ptr + r.2) rest
  end.

(** [func (d *DHCPServer) setResponseUDP(clientport uint16, packet *UDPPacket,
    payload []byte)] *)
Definition setResponseUDP (d : DHCPServer) (clientport : Z) (packet : UDPPacket)
    (payload : slice) : outcome UDPPacket :=
  let ipLenInWords := 5 in
  let eth1 := {| Destination := BroadcastHW6;
                 Source := overwrite (Source (Eth packet)) 0 (mac d);
                 SizeOrEtherType := wrap16 EtherTypeIPv4 |} in
  src ← As4 (siaddr d);
  let ip0 := IP packet in
  let totalLength := wrap16 (4 * ipLenInWords + SizeUDPHeader + wrap16 (len payload)) in
  let ip1 := {| VersionAndIHL := ipLenInWords; ToS := ToS ip0; TotalLength := totalLength;
                ID := prand16 (ID ip0); Flags := Flags ip0; TTL := 64; Protocol := 17;
                Checksum := Checksum ip0; IPSource := src; IPDestination := [0; 0; 0; 0] |} in
  let ip2 := {| VersionAndIHL := VersionAndIHL ip1; ToS := 192; TotalLength := TotalLength ip1;
                ID := ID ip1; Flags := 0; TTL := TTL ip1; Protocol := Protocol ip1;
                Checksum := CalculateChecksum ip1; IPSource := IPSource ip1;
                IPDestination := IPDestination ip1 |} in
  let udp1 := {| SourcePort := sport d; DestinationPort := clientport;
                 Length := wrap16 (TotalLength ip2 - 4 * ipLenInWords);
                 UDPChecksum := UDPChecksum (UDP packet) |} in
  let udp2 := {| SourcePort := SourcePort udp1; DestinationPort := DestinationPort udp1;
                 Length := Length udp1;
                 UDPChecksum := CalculateChecksumIPv4 udp1 ip2 (elems payload) |} in
  Returns {| Rx := Rx packet; Eth := eth1; IP := ip2; UDP := udp2; data := data packet |}.

(** What one call of [HandleUDP] leaves behind: the two results, the server
    (with its [hosts] map), the response buffer and the packet. *)
Record UDPResult := {
  res_n : Z;
  res_err : option error;
  res_server : DHCPServer;
  res_resp : slice;
  res_packet : UDPPacket;
}.

Definition dropped (err : option error) (d : DHCPServer) (resp : slice) (packet : UDPPacket)
  : outcome UDPResult :=
  Returns {| res_n := 0; res_err := err; res_server := d; res_resp := resp;
             res_packet := packet |}.

(** The [switch msgType] of [HandleUDP] (lines 126-148): the header, the
    options, the client record and [err] after it. *)
Definition dispatchType (d : DHCPServer) (packet : UDPPacket) (msgType : Z)
    (rcvHdr : DHCPHeader) (client : dhcpclient)
  : outcome (DHCPHeader * list dhcpOption * dhcpclient * option error) :=
  if msgType =? 1 then
    if negb (state client =? dhcpStateNone)
    then Returns (rcvHdr, [], client, Some "DHCP Discover on initialized client"%string)
    else
      requested ← As4 (addr client);
      si ← As4 (siaddr d);
      let hdr1 := {| YIAddr := next d requested; SIAddr := si;
                     OtherFields := OtherFields rcvHdr |} in
      let client1 := {| addr := addr client; state := dhcpStateWaitOffer;
                        port := SourcePort (UDP packet);
                        requestlist := requestlist client |} in
      Returns (hdr1, [ {| Opt := DHCP_MessageType; Data := Slice [2] 1 |} ], client1, None)
  else if msgType =? 3 then
    if negb (state client =? dhcpStateWaitOffer)
    then Returns (rcvHdr, [], client, Some "unexpected DHCP Request"%string)
    else Returns (rcvHdr, [ {| Opt := DHCP_MessageType; Data := Slice [5] 1 |} ], client, None)
  else Returns (rcvHdr, [], client, None).

(** Lines 152-170 of [HandleUDP]: store the record and build the response. *)
Definition respond (d : DHCPServer) (resp : slice) (packet : UDPPacket)
    (mac : list Z) (client : dhcpclient) (rcvHdr : DHCPHeader) (Options : list dhcpOption)
  : outcome UDPResult :=
  let d1 := set_hosts d (<[mac := client]> (hosts d)) in
  resp1 ← zeroFrom resp (dhcpOffset + 14);
  view ← reslice resp1 dhcpOffset (len resp1);
  let resp2 := write_at resp1 dhcpOffset
                 (take (length (elems view)) (DHCPHeaderPut rcvHdr (elems view))) in
  let magicCookie := 0x63825363 in
  let ptr := optionsStart in
  resp3 ← PutUint32At resp2 ptr magicCookie;
  let ptr := ptr + 4 in
  r ← encodeOptions resp3 ptr Options;
  let '(resp4, ptr) := r in
  resp5 ← storeByte resp4 ptr 255;
  payload ← reslice resp5 dhcpOffset (dhcpOffset + sizeDHCPTotal);
  packet1 ← setResponseUDP d1 (port client) packet payload;
  let resp6 := write_at resp5 0
                 (take (length (elems resp5)) (PutHeaders packet1 (elems resp5))) in
  Returns {| res_n := dhcpOffset + sizeDHCPTotal; res_err := None; res_server := d1;
             res_resp := resp6; res_packet := packet1 |}.

(** [func (d *DHCPServer) HandleUDP(resp []byte, packet *UDPPacket) (_ int, err error)] *)
Definition HandleUDP (d : DHCPServer) (resp : slice) (packet : UDPPacket)
  : outcome UDPResult :=
  let hasPacket := HasPacket packet in
  let incpayload := Payload packet in
  if len resp <? sizeDHCPTotal
  then dropped (Some "short payload to marshall DHCP"%string) d resp packet
  else if hasPacket && (len incpayload <? SizeDHCPHeader)
  then dropped (Some "short payload to parse DHCP"%string) d resp packet
  else if negb hasPacket then dropped None d resp packet
  else
    let mac := Source (Eth packet) in
    let client := default dhcpclient_zero (hosts d !! mac) in
    parsed ← parseDHCP incpayload (Some visitOption) (client, 0);
    let '(rcvHdr, err, (client, msgType)) := parsed in
    match err with
    | Some e => dropped (Some e) d resp packet
    | None =>
        other ← (if negb (msgType =? 1)
                 then si ← As4 (siaddr d); Returns (bool_decide (SIAddr rcvHdr <> si))
                 else Returns false);
        if (other : bool) then dropped None d resp packet
        else
          sw ← dispatchType d packet msgType rcvHdr client;
          let '(rcvHdr, Options, client, err) := sw in
          match err with
          | Some _ => dropped None d resp packet
          | None => respond d resp packet mac client rcvHdr Options
          end
    end.

End defs.
End stacks.

(** ** The option layout [parseDHCP] reads, as a specification *)

(** The wire form of a list of (tag, data) options: for each one its tag, the
    length of its data, and the data. *)
Fixpoint wireOptions (opts : list (Z * list Z)) : list Z :=
  match opts with
  | [] => []
  | (tag, d) :: rest => tag :: Z.of_nat (length d) :: d ++ wireOptions rest
  end.

(** The options of a wire form that starts at index [ptr] of [store], each
    with its data as a view into [store]. *)
Fixpoint optionViews (store : list Z) (ptr : nat) (opts : list (Z * list Z))
  : list stacks.dhcpOption :=
  match opts with
  | [] => []
  | (tag, d) :: rest =>
      {| stacks.Opt := tag;
         stacks.Data := Slice (drop (ptr + 2) store) (Z.of_nat (length d)) |}
      :: optionViews store (ptr + 2 + length d) rest
  end.

(** Calling [fn] on each option in turn, threading its captured variables,
    and stopping at the first error. *)
Fixpoint visitAll {S : Type} (fn : stacks.dhcpOption -> S -> outcome (S * option error))
    (views : list stacks.dhcpOption) (st : S) : outcome (S * option error) :=
  match views with
  | [] => Returns (st, None)
  | opt :: rest =>
      r ← fn opt st;
      match r with
      | (st', Some e) => Returns (st', Some e)
      | (st', None) => visitAll fn rest st'
      end
  end.

(** What may follow the last option without being read as another one: the
    end of the buffer, a single byte (a tag with no length byte), or the end
    mark 255. *)
Definition endsOptions (term : list Z) : Prop :=
  term = [] \/ (exists b, term = [b]) \/ (exists rest, term = 255 :: rest).

(** An option the wire form can carry: a tag byte other than the end mark and
    at most 255 data bytes. *)
Definition wireOption (o : Z * list Z) : Prop :=
  0 <= o.1 < 255 /\ (length o.2 <= 255)%nat.

(** Normalising nested appends before comparing two lists. *)
Ltac lnorm := rewrite <- ?app_assoc; simpl; rewrite <- ?app_assoc; try reflexivity.

(** Lengths of lists built from appends, takes, drops and replicates. *)
Ltac lens :=
  repeat (rewrite ?length_app, ?length_replicate, ?length_take, ?length_drop,
            ?length_cons, ?length_nil); simpl; try lia.

(** * A reference implementation of the imported packages

    Used to run the model on concrete inputs.  Times are nanosecond counts,
    the control block is a number that refuses every segment when it is 0, the
    codec follows the usual wire layout (Ethernet 14, IPv4 20, TCP 20, UDP 8
    and DHCP 44 bytes; [yiaddr] at offset 16 and [siaddr] at offset 20 of the
    DHCP header; option tags 53, 55 and 50). *)

#[export] Instance refTime : TimeAPI :=
  {| Time := Z; zeroTime := 0; IsZero t := t =? 0 |}.

#[export] Instance refSeqs : SeqsAPI :=
  {| Segment := Z; ControlBlock := Z;
     Recv c seg := if c =? 0 then (c, Some "connection closed"%string) else (c, None);
     PendingSegment c n := (n, true) |}.

#[export] Instance refEth : EthAPI :=
  {| SizeEthernetHeader := 14; SizeIPv4Header := 20; SizeTCPHeader := 20;
     SizeUDPHeader := 8; SizeDHCPHeader := 44;
     TCPHeader := Z;
     IHL ip := Z.land (VersionAndIHL ip) 15;
     OffsetInBytes words := 4 * words;
     TCPSegment _ n := n;
     CalculateChecksum _ := 0;
     CalculateChecksumIPv4 _ _ _ := 0;
     BroadcastHW6 := replicate 6 255;
     EtherTypeIPv4 := 2048;
     zeroOtherFields := replicate 36 0;
     DecodeDHCPHeader b :=
       {| YIAddr := take 4 (drop 16 b); SIAddr := take 4 (drop 20 b);
          OtherFields := take 16 b ++ take 20 (drop 24 b) |};
     DHCPHeaderPut h b :=
       overwrite b 0 (take 16 (OtherFields h) ++ YIAddr h ++ SIAddr h
                      ++ drop 16 (OtherFields h));
     DHCP_MessageType := 53; DHCP_ParameterRequestList := 55;
     DHCP_RequestedIPaddress := 50 |}.

#[export] Instance refStack : StackDecls := {| forcedTime := 1; MTU := 1500 |}.

#[export] Instance refStacks : stacks.StacksDecls :=
  {| stacks.dhcpStateNone := 0; stacks.dhcpStateWaitOffer := 1;
     stacks.prand16 x := wrap16 (x * 75 + 74);
     stacks.HasPacket p := negb (stacks.Rx p =? 1) && negb (stacks.Rx p =? 0);
     stacks.Payload p := Slice (stacks.data p) (Z.of_nat (length (stacks.data p)));
     stacks.PutHeaders _ b := b |}.

(** ** Sample inputs *)

Module sample.

Definition eth0 : EthernetHeader :=
  {| Destination := replicate 6 255; Source := [170; 187; 204; 221; 238; 255];
     SizeOrEtherType := 2048 |}.

Definition ip0 (totalLength : Z) : IPv4Header :=
  {| VersionAndIHL := 69; ToS := 0; TotalLength := totalLength; ID := 1; Flags := 0;
     TTL := 64; Protocol := 6; Checksum := 0; IPSource := [10; 0; 0; 2];
     IPDestination := [10; 0; 0; 1] |}.

(** A TCP packet received at time [rx]: no IP options, a 24-byte TCP header
    (4 bytes of options), total length 48, so 4 payload bytes. *)
Definition tcpPacket (rx : Z) : stack.TCPPacket :=
  {| stack.Rx := rx; stack.Eth := eth0; stack.IP := ip0 48; stack.TCP := 6;
     stack.data := [2; 4; 5; 180; 104; 101; 108; 111] ++ replicate 1438 0 |}.

(** A handler that answers with two bytes and an error, and scribbles on the
    receive time of the packet it is handed. *)
Definition echo : stack.Handler := fun response self =>
  {| stack.h_n := 2; stack.h_err := Some "handler failed"%string;
     stack.h_response := response; stack.h_self := stack.set_Rx self 99 |}.

Definition socket (port rx cb : Z) (h : option stack.Handler) : stack.tcpSocket :=
  {| stack.LastRx := 0; stack.handler := h; stack.Port := port;
     stack.packets := tcpPacket rx; stack.tcb := cb |}.

Definition dst : slice := Slice (replicate 64 0) 64.

(** A TCP packet with 4 bytes of IP options (IHL 6), a 24-byte TCP header and
    total length 56. *)
Definition tcpPacketIPOptions (rx : Z) : stack.TCPPacket :=
  {| stack.Rx := rx; stack.Eth := eth0;
     stack.IP := {| VersionAndIHL := 70; ToS := 0; TotalLength := 56; ID := 1; Flags := 0;
                    TTL := 64; Protocol := 6; Checksum := 0; IPSource := [10; 0; 0; 2];
                    IPDestination := [10; 0; 0; 1] |};
     stack.TCP := 6;
     stack.data := [1; 1; 1; 0; 2; 4; 5; 180; 104; 101; 108; 111; 33; 33; 33; 33]
                   ++ replicate 1430 0 |}.

(** A handler that answers with one byte and leaves the packet alone. *)
Definition quiet : stack.Handler := fun response self =>
  {| stack.h_n := 1; stack.h_err := None;
     stack.h_response := response; stack.h_self := self |}.

(** The DHCP server of the examples, at 192.168.1.1, with no client yet. *)
Definition server : stacks.DHCPServer :=
  stacks.NewDHCPServer 67 [2; 0; 0; 0; 0; 1] (stacks.AddrV4 [192; 168; 1; 1]).

(** The bytes before the options: a 44-byte DHCP header with the given
    [siaddr] at offset 20, the 64 and 128 bytes of [sname] and [file], and the
    magic cookie. *)
Definition preamble (siaddr : list Z) : list Z :=
  replicate 20 0 ++ siaddr ++ replicate 20 0 ++ replicate 192 0 ++ [99; 130; 83; 99].

(** A packet received from AA:BB:CC:DD:EE:FF, UDP port 68, whose payload is
    the preamble followed by [options]. *)
Definition udpPacket (siaddr options : list Z) : stacks.UDPPacket :=
  {| stacks.Rx := 5; stacks.Eth := eth0; stacks.IP := ip0 0;
     stacks.UDP := {| SourcePort := 68; DestinationPort := 67; Length := 0;
                      UDPChecksum := 0 |};
     stacks.data := preamble siaddr ++ options |}.

Definition resp : slice := Slice (replicate 600 0) 600.

(** Discover, no requested address. *)
Definition discover : stacks.UDPPacket := udpPacket [0; 0; 0; 0] [53; 1; 1; 255].

(** Discover asking for 10.0.0.9. *)
Definition discoverFor9 : stacks.UDPPacket :=
  udpPacket [0; 0; 0; 0] [53; 1; 1; 50; 4; 10; 0; 0; 9; 255].

(** Request naming this server. *)
Definition request : stacks.UDPPacket := udpPacket [192; 168; 1; 1] [53; 1; 3; 255].

(** Request naming another server, 192.168.1.77. *)
Definition requestElsewhere : stacks.UDPPacket :=
  udpPacket [192; 168; 1; 77] [53; 1; 3; 255].

(** Release (message type 7) naming this server. *)
Definition release : stacks.UDPPacket := udpPacket [192; 168; 1; 1] [53; 1; 7; 255].

(** A callback that appends each option it is shown, as (tag, data), to a list. *)
Definition record (opt : stacks.dhcpOption) (seen : list (Z * list Z))
  : outcome (list (Z * list Z) * option error) :=
  Returns (seen ++ [(stacks.Opt opt, elems (stacks.Data opt))], None).

(** A payload cut short: its only option announces 4 data bytes, 2 are there.
    [truncated] fills its backing array; [truncatedInBuffer] is the same 244
    bytes at the start of a longer array, as a view into a packet buffer is. *)
Definition truncated : slice := Slice (preamble [0; 0; 0; 0] ++ [53; 4; 1; 2]) 244.

Definition truncatedInBuffer : slice :=
  Slice (preamble [0; 0; 0; 0] ++ [53; 4; 1; 2] ++ [9; 9; 9; 9]) 244.

(** Three options: message type 1, requested address 10.0.0.9, and a
    parameter request list of three tags. *)
Definition threeOptions : list (Z * list Z) :=
  [(53, [1]); (50, [10; 0; 0; 9]); (55, [1; 3; 6])].

(** The server once it has offered 10.0.0.9 to AA:BB:CC:DD:EE:FF. *)
Definition serverOffered : stacks.DHCPServer :=
  stacks.set_hosts server
    {[ [170; 187; 204; 221; 238; 255] :=
         {| stacks.addr := stacks.AddrV4 [10; 0; 0; 9]; stacks.state := 1;
            stacks.port := 68; stacks.requestlist := replicate 10 0 |} ]}.

End sample.

(** * Theorems about package [stack] *)

Section stack_facts.
Import stack.
Context `{TimeAPI} `{EthAPI} `{!StackDecls}.

(** The three offsets before validation, as [dataPtrs] computes them. *)
Lemma dataPtrs_unfold (p : TCPPacket) :
  let tcpOptStart := wrap8 (4 * IHL (IP p)) - SizeIPv4Header in
  let payloadStart := tcpOptStart + OffsetInBytes (TCP p) - SizeTCPHeader in
  let payloadEnd := TotalLength (IP p) - tcpOptStart - SizeTCPHeader - SizeIPv4Header in
  (0 <= tcpOptStart <= payloadStart /\ payloadStart <= payloadEnd
   /\ payloadEnd <= Z.of_nat (length (data p))
   /\ dataPtrs p = (payloadStart, payloadEnd, tcpOptStart))
  \/ (~ (0 <= tcpOptStart <= payloadStart /\ payloadStart <= payloadEnd
         /\ payloadEnd <= Z.of_nat (length (data p)))
      /\ dataPtrs p = (-1, -1, -1)).
Proof.
  intros os ps pe. unfold dataPtrs. fold os. fold ps. fold pe.
  destruct ((ps <? 0) || (pe <? 0) || (os <? 0) || (ps >? pe)
            || (pe >? Z.of_nat (length (data p))) || (os >? ps)) eqn:E.
  - right. split; [|reflexivity].
    rewrite !orb_true_iff in E. rewrite !Z.gtb_ltb, !Z.ltb_lt in E. lia.
  - left. rewrite !orb_false_iff in E. rewrite !Z.gtb_ltb, !Z.ltb_ge in E.
    repeat split; lia.
Qed.

(** C1. For every packet (hence every IHL, data offset and total length, under
    every header codec) [dataPtrs] returns either the sentinel [(-1, -1, -1)]
    or three offsets that are all non-negative, ordered
    [tcpOptStart <= payloadStart <= payloadEnd], and within [len(data)]; a
    result never mixes the two. *)
Theorem dataPtrs_valid_or_sentinel (p : TCPPacket) :
  dataPtrs p = (-1, -1, -1)
  \/ exists payloadStart payloadEnd tcpOptStart,
       dataPtrs p = (payloadStart, payloadEnd, tcpOptStart)
       /\ 0 <= tcpOptStart /\ 0 <= payloadStart /\ 0 <= payloadEnd
       /\ tcpOptStart <= payloadStart <= payloadEnd
       /\ payloadEnd <= Z.of_nat (length (data p)).
Proof.
  destruct (dataPtrs_unfold p) as [(Hos & Hps & Hpe & Heq) | (_ & Heq)].
  - right. eexists _, _, _. split; [exact Heq|]. lia.
  - left. exact Heq.
Qed.

(** A valid result of [dataPtrs] has a non-negative first component, so the
    test [payloadStart < 0] of the three views separates the two cases. *)
Lemma dataPtrs_sentinel_iff (p : TCPPacket) :
  (dataPtrs p).1.1 < 0 <-> dataPtrs p = (-1, -1, -1).
Proof.
  destruct (dataPtrs_unfold p) as [(Hos & Hps & Hpe & E) | (_ & E)];
    rewrite E; simpl; split; intros Hx; try lia; try reflexivity.
  inversion Hx; lia.
Qed.

(** The bounds of a result of [dataPtrs] other than the sentinel. *)
Lemma dataPtrs_bounds (p : TCPPacket) (payloadStart payloadEnd tcpOptStart : Z) :
  dataPtrs p = (payloadStart, payloadEnd, tcpOptStart) ->
  dataPtrs p <> (-1, -1, -1) ->
  0 <= tcpOptStart <= payloadStart /\ payloadStart <= payloadEnd
  /\ payloadEnd <= Z.of_nat (length (data p)).
Proof.
  intros E Hne.
  destruct (dataPtrs_unfold p) as [(Hos & Hps & Hpe & E') | (_ & E')]; [|congruence].
  rewrite E in E'. inversion E'; subst. lia.
Qed.

Lemma HasPacket_true (p : TCPPacket) :
  HasPacket p = true <-> Rx p <> forcedTime /\ IsZero (Rx p) = false.
Proof.
  unfold HasPacket. rewrite andb_true_iff, !negb_true_iff, bool_decide_eq_false.
  reflexivity.
Qed.

(** [Payload] never panics: the slice bounds it uses have been validated. *)
Lemma Payload_returns (p : TCPPacket) : exists s, Payload p = Returns s.
Proof.
  unfold Payload. destruct (negb (HasPacket p)); [eauto|].
  destruct (dataPtrs_unfold p) as [(Hos & Hps & Hpe & E) | (_ & E)]; rewrite E.
  - match goal with |- context [?a <? 0] => destruct (a <? 0) end; [eauto|].
    unfold array_slice. rewrite (proj2 (andb_true_iff _ _)); [eauto|].
    rewrite andb_true_iff, !Z.leb_le. lia.
  - simpl. eauto.
Qed.

(** C5. [HasPacket] holds exactly when the receive time is neither the zero
    time nor the forced time.  [Payload] is nil when [HasPacket] is false and
    when the header geometry is invalid; otherwise it is exactly
    [data[payloadStart:payloadEnd]], whose elements are the bytes of [data]
    from [payloadStart] up to [payloadEnd]. *)
Theorem Payload_spec (p : TCPPacket) :
  (HasPacket p = true <-> IsZero (Rx p) = false /\ Rx p <> forcedTime)
  /\ (HasPacket p = false -> Payload p = Returns SliceNil)
  /\ (dataPtrs p = (-1, -1, -1) -> Payload p = Returns SliceNil)
  /\ (forall payloadStart payloadEnd tcpOptStart,
        HasPacket p = true ->
        dataPtrs p = (payloadStart, payloadEnd, tcpOptStart) ->
        dataPtrs p <> (-1, -1, -1) ->
        Payload p = Returns (Slice (drop (Z.to_nat payloadStart) (data p))
                                   (payloadEnd - payloadStart))
        /\ Payload p = array_slice (data p) payloadStart payloadEnd
        /\ forall s, Payload p = Returns s ->
             len s = payloadEnd - payloadStart
             /\ elems s = take (Z.to_nat (payloadEnd - payloadStart))
                               (drop (Z.to_nat payloadStart) (data p))).
Proof.
  split; [rewrite HasPacket_true; tauto|].
  split; [intros Hp; unfold Payload; rewrite Hp; reflexivity|].
  split.
  { intros E. unfold Payload. rewrite E. simpl. destruct (negb (HasPacket p)); reflexivity. }
  intros ps pe os Hp E Hne.
  assert (Hpay : Payload p = array_slice (data p) ps pe).
  { unfold Payload. rewrite Hp, E. simpl.
    destruct (ps <? 0) eqn:Hps; [|reflexivity].
    exfalso. apply Hne. apply dataPtrs_sentinel_iff. rewrite E. simpl.
    apply Z.ltb_lt in Hps. lia. }
  assert (Hok : array_slice (data p) ps pe
                = Returns (Slice (drop (Z.to_nat ps) (data p)) (pe - ps))).
  { pose proof (dataPtrs_bounds p ps pe os E Hne) as Hb.
    unfold array_slice.
    replace ((0 <=? ps) && (ps <=? pe) && (pe <=? Z.of_nat (length (data p)))) with true;
      [reflexivity|].
    symmetry. rewrite !andb_true_iff, !Z.leb_le. lia. }
  split; [congruence|]. split; [exact Hpay|].
  intros s Hs. rewrite Hpay, Hok in Hs. inversion Hs; subst s. split; reflexivity.
Qed.

(** The two fields [IsPendingHandling] reads. *)
Lemma IsPendingHandling_false (u : tcpSocket) :
  IsPendingHandling u = false <-> Port u = 0 \/ IsZero (Rx (packets u)) = true.
Proof.
  unfold IsPendingHandling.
  rewrite andb_false_iff, !negb_false_iff, Z.eqb_eq. reflexivity.
Qed.

Lemma IsPendingHandling_true (u : tcpSocket) :
  IsPendingHandling u = true <-> Port u <> 0 /\ IsZero (Rx (packets u)) = false.
Proof.
  unfold IsPendingHandling.
  rewrite andb_true_iff, !negb_true_iff, Z.eqb_neq. reflexivity.
Qed.

(** C6. On a socket with a handler whose slot holds the forced time,
    [HandleEth] returns what the handler returns, has invoked the handler
    exactly once (on the response buffer and the slot), and leaves the slot's
    receive time at the zero time whatever the handler returned or did to the
    packet; the port is unchanged, so an open socket is open and empty. *)
Theorem HandleEth_forced (u : tcpSocket) (dst : slice) (h : Handler) :
  IsZero zeroTime = true ->
  handler u = Some h ->
  Rx (packets u) = forcedTime ->
  exists r, HandleEth u dst = Returns r
    /\ res_calls r = [(dst, packets u)]
    /\ res_n r = h_n (h dst (packets u))
    /\ res_err r = h_err (h dst (packets u))
    /\ Rx (packets (res_sock r)) = zeroTime
    /\ Port (res_sock r) = Port u
    /\ handler (res_sock r) = Some h
    /\ IsPendingHandling (res_sock r) = false.
Proof.
  intros Hz Hh Hrx. unfold HandleEth. rewrite Hh.
  assert (Hno : HasPacket (packets u) = false).
  { unfold HasPacket. rewrite Hrx, bool_decide_eq_true_2 by reflexivity. reflexivity. }
  rewrite Hno. eexists. split; [reflexivity|]. simpl.
  repeat split; try assumption.
  apply IsPendingHandling_false. right. simpl. exact Hz.
Qed.

(** C7, as the code has it.  [forceResponse] returns true and sets the slot's
    receive time to the forced time exactly when [IsPendingHandling] is false,
    that is when the port is zero or the slot's time is zero; otherwise it
    returns false and changes nothing.  On a socket with a non-zero port this
    is: true exactly in state Open-Empty.  A socket just opened is not
    pending, and on an open socket a second [forceResponse] after a successful
    one returns false. *)
Theorem forceResponse_spec (u : tcpSocket) :
  IsZero zeroTime = true ->
  IsZero forcedTime = false ->
  ((forceResponse u).1 = true <-> Port u = 0 \/ IsZero (Rx (packets u)) = true)
  /\ ((forceResponse u).1 = true ->
       (forceResponse u).2 = set_packets u (set_Rx (packets u) forcedTime))
  /\ ((forceResponse u).1 = false -> (forceResponse u).2 = u)
  /\ (Port u <> 0 ->
       ((forceResponse u).1 = true <-> IsZero (Rx (packets u)) = true))
  /\ (forall port h u', Open u port h = Returns u' -> IsPendingHandling u' = false)
  /\ (Port u <> 0 -> (forceResponse u).1 = true ->
       IsPendingHandling (forceResponse u).2 = true
       /\ (forceResponse (forceResponse u).2).1 = false).
Proof.
  intros Hz Hf.
  assert (Hiff : (forceResponse u).1 = true
                 <-> Port u = 0 \/ IsZero (Rx (packets u)) = true).
  { rewrite <- IsPendingHandling_false. unfold forceResponse.
    destruct (IsPendingHandling u); simpl; split; congruence. }
  split; [exact Hiff|].
  split. { unfold forceResponse. destruct (IsPendingHandling u); simpl; congruence. }
  split. { unfold forceResponse. destruct (IsPendingHandling u); simpl; congruence. }
  split. { intros Hp. rewrite Hiff. tauto. }
  split.
  { intros port h u' Ho. unfold Open in Ho. destruct h; [|discriminate].
    destruct (port =? 0); [discriminate|]. inversion Ho; subst u'.
    apply IsPendingHandling_false. right. simpl. exact Hz. }
  intros Hp Ht.
  assert (Hpend : IsPendingHandling (forceResponse u).2 = true).
  { unfold forceResponse in *. destruct (IsPendingHandling u); simpl in *; [discriminate|].
    apply IsPendingHandling_true. simpl. split; assumption. }
  split; [exact Hpend|].
  unfold forceResponse at 1. rewrite Hpend. reflexivity.
Qed.

(** C8. On a socket with a handler whose slot holds a real packet, when the
    control block's [Recv] returns an error for the decoded segment,
    [HandleEth] returns 0 and that error and has not invoked the handler. *)
Theorem HandleEth_recv_error (u : tcpSocket) (dst : slice) (h : Handler)
    (payload : slice) (tcb1 : ControlBlock) (e : error) :
  handler u = Some h ->
  HasPacket (packets u) = true ->
  Payload (packets u) = Returns payload ->
  Recv (tcb u) (TCPSegment (TCP (packets u)) (len payload)) = (tcb1, Some e) ->
  exists r, HandleEth u dst = Returns r
    /\ res_n r = 0
    /\ res_err r = Some e
    /\ res_calls r = []
    /\ res_dst r = dst.
Proof.
  intros Hh Hp Hpay Hrecv. unfold HandleEth. rewrite Hh, Hp, Hpay. simpl.
  rewrite Hrecv. eexists. split; [reflexivity|]. simpl. repeat split.
Qed.

(** Whenever [HandleEth] has invoked the handler, the slot's receive time is
    the zero time afterwards. *)
Lemma HandleEth_called_invalidates (u : tcpSocket) (dst : slice) (r : EthResult) :
  HandleEth u dst = Returns r ->
  res_calls r <> [] ->
  Rx (packets (res_sock r)) = zeroTime.
Proof.
  unfold HandleEth. destruct (handler u) as [h|]; [|discriminate].
  destruct (HasPacket (packets u)).
  - destruct (Payload (packets u)) as [payload| |]; simpl; try discriminate.
    destruct (Recv _ _) as [tcb1 [e|]].
    + intros Hr; inversion Hr; subst r; simpl. congruence.
    + destruct (PendingSegment tcb1 0) as [seg [|]];
        intros Hr; inversion Hr; subst r; simpl; congruence.
  - intros Hr; inversion Hr; subst r; simpl. reflexivity.
Qed.

(** C10. When [HandleEth] aborts because [Recv] returned an error, the slot is
    left as it was: same packet, same receive time, still a real packet, and
    [IsPendingHandling] as before the call (true on an open socket); whereas
    on every path that invokes the handler the receive time ends at zero. *)
Theorem HandleEth_recv_error_keeps_slot (u : tcpSocket) (dst : slice) (h : Handler)
    (payload : slice) (tcb1 : ControlBlock) (e : error) :
  handler u = Some h ->
  HasPacket (packets u) = true ->
  Payload (packets u) = Returns payload ->
  Recv (tcb u) (TCPSegment (TCP (packets u)) (len payload)) = (tcb1, Some e) ->
  exists r, HandleEth u dst = Returns r
    /\ res_err r = Some e
    /\ packets (res_sock r) = packets u
    /\ Rx (packets (res_sock r)) = Rx (packets u)
    /\ HasPacket (packets (res_sock r)) = true
    /\ IsPendingHandling (res_sock r) = IsPendingHandling u
    /\ (Port u <> 0 -> IsPendingHandling (res_sock r) = true)
    /\ (forall u' dst' r', HandleEth u' dst' = Returns r' -> res_calls r' <> [] ->
          Rx (packets (res_sock r')) = zeroTime).
Proof.
  intros Hh Hp Hpay Hrecv. unfold HandleEth. rewrite Hh, Hp, Hpay. simpl.
  rewrite Hrecv. eexists. split; [reflexivity|]. simpl.
  repeat split; try assumption.
  - intros Hport. apply IsPendingHandling_true. simpl. split; [assumption|].
    apply HasPacket_true in Hp. tauto.
  - intros u' dst' r'. apply HandleEth_called_invalidates.
Qed.

End stack_facts.

(** * Theorems about package [stacks] *)

(** A call sequenced after another returns only if the first returned. *)
Lemma bind_Returns {A B : Type} (m : outcome A) (k : A -> outcome B) (r : B) :
  (m ≫= k) = Returns r -> exists a, m = Returns a /\ k a = Returns r.
Proof. destruct m; simpl; intros Hk; try discriminate. eauto. Qed.

Lemma index_Returns (s : slice) (i b : Z) :
  index s i = Returns b -> 0 <= i < len s /\ store_of s !! Z.to_nat i = Some b.
Proof.
  unfold index. destruct ((0 <=? i) && (i <? len s)) eqn:E; [|discriminate].
  apply andb_true_iff in E. destruct E as [E1 E2].
  apply Z.leb_le in E1. apply Z.ltb_lt in E2.
  destruct (store_of s !! Z.to_nat i) eqn:El; [|discriminate].
  intros Hb; inversion Hb; subst. split; [lia|reflexivity].
Qed.

Lemma index_not_Unfinished (s : slice) (i : Z) : index s i <> Unfinished.
Proof.
  unfold index. destruct ((0 <=? i) && (i <? len s)); [|discriminate].
  destruct (store_of s !! Z.to_nat i); discriminate.
Qed.

Lemma reslice_not_Unfinished (s : slice) (a b : Z) : reslice s a b <> Unfinished.
Proof. unfold reslice. destruct ((0 <=? a) && (a <=? b) && (b <=? cap s)); discriminate. Qed.

Section stacks_facts.
Import stacks.
Context `{TimeAPI} `{EthAPI} `{!StacksDecls}.

(** The option loop ends within the fuel [parseDHCP] gives it: every round
    moves [ptr] forward by at least two. *)
Lemma scanOptions_finishes {S : Type} (fn : dhcpOption -> S -> outcome (S * option error))
    (incpayload : slice) :
  bytes_ok incpayload ->
  (forall opt st, fn opt st <> Unfinished) ->
  forall (fuel : nat) (ptr : Z) (st : S),
    len incpayload - ptr < Z.of_nat fuel \/ ptr < 0 ->
    (0 < fuel)%nat ->
    scanOptions fn fuel incpayload ptr st <> Unfinished.
Proof.
  intros Hbytes Hfn. induction fuel as [|fuel IH]; intros ptr st Hfuel Hpos; [lia|].
  simpl. destruct (ptr + 1 <? len incpayload) eqn:Hc; [|discriminate].
  apply Z.ltb_lt in Hc.
  destruct (index incpayload (ptr + 1)) as [lenByte| |] eqn:E1; simpl;
    [|discriminate|destruct (index_not_Unfinished _ _ E1)].
  destruct (lenByte <? len incpayload); [|discriminate].
  destruct (index incpayload ptr) as [tag| |] eqn:E2; simpl;
    [|discriminate|destruct (index_not_Unfinished _ _ E2)].
  destruct (tag =? 255); [discriminate|].
  destruct (reslice incpayload (ptr + 2) (ptr + 2 + lenByte)) as [optionData| |] eqn:E3;
    simpl; [|discriminate|destruct (reslice_not_Unfinished _ _ _ E3)].
  destruct (fn _ st) as [[st' [e|]]| |] eqn:E4; simpl;
    [discriminate| |discriminate|destruct (Hfn _ _ E4)].
  apply index_Returns in E1. destruct E1 as [_ E1].
  apply index_Returns in E2. destruct E2 as [E2 _].
  assert (0 <= lenByte < 256) as Hb.
  { unfold bytes_ok in Hbytes. rewrite Forall_forall in Hbytes.
    apply Hbytes. eapply list_elem_of_lookup_2. exact E1. }
  apply IH; lia.
Qed.

Lemma visitOption_not_Unfinished (opt : dhcpOption) (st : dhcpclient * Z) :
  visitOption opt st <> Unfinished.
Proof.
  unfold visitOption. destruct st as [client msgType].
  destruct (Opt opt =? DHCP_MessageType).
  - destruct (len (Data opt) =? 1); [|discriminate].
    destruct (index (Data opt) 0) eqn:E; simpl; try discriminate.
    destruct (index_not_Unfinished _ _ E).
  - destruct (Opt opt =? DHCP_ParameterRequestList); [discriminate|].
    destruct (Opt opt =? DHCP_RequestedIPaddress); [|discriminate].
    destruct ((len (Data opt) =? 4) && (state client =? dhcpStateNone)); discriminate.
Qed.

(** [parseDHCP] always finishes: on a buffer of bytes, with a callback that
    finishes, the outcome is a return or a panic, never the fuel running out. *)
Lemma parseDHCP_finishes {S : Type} (incpayload : slice)
    (fn : option (dhcpOption -> S -> outcome (S * option error))) (st : S) :
  bytes_ok incpayload ->
  (forall f opt st', fn = Some f -> f opt st' <> Unfinished) ->
  parseDHCP incpayload fn st <> Unfinished.
Proof.
  intros Hbytes Hfn. unfold parseDHCP.
  destruct (len incpayload <? SizeDHCPHeader); [discriminate|].
  destruct fn as [f|]; [|discriminate].
  destruct (_ >=? len incpayload) eqn:Hge; [discriminate|].
  destruct (scanOptions f _ incpayload _ st) as [r| |] eqn:E; simpl; try discriminate.
  exfalso. revert E. apply scanOptions_finishes; eauto.
  - rewrite Z.geb_leb in Hge. apply Z.leb_gt in Hge.
    destruct (Z_lt_le_dec (SizeDHCPHeader + sizeSName + sizeFILE + 4) 0); [right|left]; lia.
  - lia.
Qed.

(** [respond] returns the full frame size and stores the client record. *)
Lemma respond_Returns (d : DHCPServer) (resp : slice) (packet : UDPPacket)
    (mac : list Z) (client : dhcpclient) (rcvHdr : DHCPHeader)
    (Options : list dhcpOption) (r : UDPResult) :
  respond d resp packet mac client rcvHdr Options = Returns r ->
  res_n r = dhcpOffset + sizeDHCPTotal
  /\ res_err r = None
  /\ hosts (res_server r) = <[mac := client]> (hosts d).
Proof.
  unfold respond. intros Hr.
  apply bind_Returns in Hr. destruct Hr as (resp1 & _ & Hr).
  apply bind_Returns in Hr. destruct Hr as (view & _ & Hr).
  apply bind_Returns in Hr. destruct Hr as (resp3 & _ & Hr).
  apply bind_Returns in Hr. destruct Hr as ([resp4 ptr] & _ & Hr).
  apply bind_Returns in Hr. destruct Hr as (resp5 & _ & Hr).
  apply bind_Returns in Hr. destruct Hr as (payload & _ & Hr).
  apply bind_Returns in Hr. destruct Hr as (packet1 & _ & Hr).
  inversion Hr; subst r; simpl. repeat split.
Qed.

Lemma dropped_Returns (err : option error) (d : DHCPServer) (resp : slice)
    (packet : UDPPacket) (r : UDPResult) :
  dropped err d resp packet = Returns r ->
  res_n r = 0 /\ res_err r = err /\ res_server r = d /\ res_resp r = resp
  /\ res_packet r = packet.
Proof. unfold dropped. intros Hr; inversion Hr; subst r; simpl. repeat split. Qed.

(** Every return of [HandleUDP] is either a drop, which changes nothing, or a
    response of the full frame size. *)
Lemma HandleUDP_Returns (d : DHCPServer) (resp : slice) (packet : UDPPacket)
    (r : UDPResult) :
  HandleUDP d resp packet = Returns r ->
  (res_n r = 0 /\ res_server r = d /\ res_resp r = resp /\ res_packet r = packet)
  \/ (res_n r = dhcpOffset + sizeDHCPTotal /\ res_err r = None
      /\ exists client,
           hosts (res_server r) = <[Source (Eth packet) := client]> (hosts d)).
Proof.
  unfold HandleUDP.
  destruct (len resp <? sizeDHCPTotal);
    [intros Hr; apply dropped_Returns in Hr; left; tauto|].
  destruct (HasPacket packet && (len (Payload packet) <? SizeDHCPHeader));
    [intros Hr; apply dropped_Returns in Hr; left; tauto|].
  destruct (negb (HasPacket packet));
    [intros Hr; apply dropped_Returns in Hr; left; tauto|].
  intros Hr. apply bind_Returns in Hr.
  destruct Hr as ([[rcvHdr err] [client msgType]] & _ & Hr).
  destruct err as [e|]; [apply dropped_Returns in Hr; left; tauto|].
  apply bind_Returns in Hr. destruct Hr as (other & _ & Hr).
  destruct other; [apply dropped_Returns in Hr; left; tauto|].
  apply bind_Returns in Hr.
  destruct Hr as ([[[rcvHdr1 Options] client1] err1] & _ & Hr).
  destruct err1 as [e|]; [apply dropped_Returns in Hr; left; tauto|].
  apply respond_Returns in Hr. right.
  destruct Hr as (Hn & He & Hh). split; [exact Hn|]. split; [exact He|].
  exists client1. exact Hh.
Qed.

(** C9. With non-negative header sizes, whenever [HandleUDP] returns 0 bytes
    written (with or without an error) the [hosts] table and the response
    buffer are exactly as before the call: no record was created or changed
    and no byte of [resp] was written. *)
Theorem HandleUDP_zero_changes_nothing (d : DHCPServer) (resp : slice)
    (packet : UDPPacket) (r : UDPResult) :
  0 <= SizeEthernetHeader -> 0 <= SizeIPv4Header -> 0 <= SizeUDPHeader ->
  0 <= SizeDHCPHeader ->
  HandleUDP d resp packet = Returns r ->
  res_n r = 0 ->
  hosts (res_server r) = hosts d
  /\ hosts (res_server r) !! Source (Eth packet) = hosts d !! Source (Eth packet)
  /\ res_resp r = resp.
Proof.
  intros He Hi Hu Hd Hr Hn.
  apply HandleUDP_Returns in Hr. destruct Hr as [(_ & Hs & Hresp & _) | (Hn' & _)].
  - rewrite Hs. repeat split. exact Hresp.
  - exfalso. rewrite Hn in Hn'.
    unfold dhcpOffset, sizeDHCPTotal, sizeSName, sizeFILE, sizeOptions in Hn'. lia.
Qed.

(** A parse that reports no error had a payload at least as long as the
    fixed header. *)
Lemma parseDHCP_no_error_len {S : Type} (incpayload : slice)
    (fn : option (dhcpOption -> S -> outcome (S * option error))) (st st' : S)
    (hdr : DHCPHeader) :
  parseDHCP incpayload fn st = Returns (hdr, None, st') ->
  (len incpayload <? SizeDHCPHeader) = false.
Proof.
  unfold parseDHCP. destruct (len incpayload <? SizeDHCPHeader); [|reflexivity].
  discriminate.
Qed.

(** X17. The silent drops [HandleUDP] implements.  On a server with an IPv4
    address, when a packet is pending, the response buffer is long enough and
    the payload parses without error into [rcvHdr], the client record and
    [msgType]: a Discover from a client not in state None, a Request from a
    client not in state WaitOffer, and any message other than a Discover
    whose [SIAddr] is not the server's address are dropped.  [HandleUDP]
    returns 0 bytes and a nil error. *)
Theorem HandleUDP_drops_silently (d : DHCPServer) (resp : slice) (packet : UDPPacket)
    (rcvHdr : DHCPHeader) (client : dhcpclient) (msgType : Z) (si : list Z) :
  sizeDHCPTotal <= len resp ->
  HasPacket packet = true ->
  parseDHCP (Payload packet) (Some visitOption)
            (default dhcpclient_zero (hosts d !! Source (Eth packet)), 0)
    = Returns (rcvHdr, None, (client, msgType)) ->
  As4 (siaddr d) = Returns si ->
  (msgType = 1 /\ state client <> dhcpStateNone)
  \/ (msgType = 3 /\ state client <> dhcpStateWaitOffer)
  \/ (msgType <> 1 /\ SIAddr rcvHdr <> si) ->
  exists r, HandleUDP d resp packet = Returns r
    /\ res_n r = 0 /\ res_err r = None.
Proof.
  intros Hlen Hhas Hparse Hsi Hcase.
  exists {| res_n := 0; res_err := None; res_server := d; res_resp := resp;
            res_packet := packet |}.
  split; [|split; reflexivity]. fold (dropped None d resp packet). unfold HandleUDP.
  replace (len resp <? sizeDHCPTotal) with false by (symmetry; apply Z.ltb_ge; lia).
  rewrite (parseDHCP_no_error_len _ _ _ _ _ Hparse), Hhas. simpl.
  rewrite Hparse. simpl. rewrite Hsi. simpl.
  destruct (msgType =? 1) eqn:E1; simpl.
  - apply Z.eqb_eq in E1. subst msgType.
    destruct Hcase as [(_ & Hst) | [(Hx & _) | (Hx & _)]]; try lia.
    unfold dispatchType. simpl.
    replace (state client =? dhcpStateNone) with false
      by (symmetry; apply Z.eqb_neq; exact Hst).
    reflexivity.
  - apply Z.eqb_neq in E1.
    destruct (bool_decide (SIAddr rcvHdr <> si)) eqn:Eo; [reflexivity|].
    apply bool_decide_eq_false in Eo.
    destruct Hcase as [(Hx & _) | [(Hm & Hst) | (_ & Hx)]]; [lia| |tauto].
    subst msgType. unfold dispatchType. simpl.
    replace (state client =? dhcpStateWaitOffer) with false
      by (symmetry; apply Z.eqb_neq; exact Hst).
    reflexivity.
Qed.

(** A Discover from a client in state None whose record holds the zero
    [netip.Addr] (no Requested-IP option seen, no earlier record) makes
    [HandleUDP] panic, whatever the rest of the message. *)
Lemma HandleUDP_discover_zero_addr_panics (d : DHCPServer) (resp : slice)
    (packet : UDPPacket) (rcvHdr : DHCPHeader) (client : dhcpclient) :
  sizeDHCPTotal <= len resp ->
  HasPacket packet = true ->
  parseDHCP (Payload packet) (Some visitOption)
            (default dhcpclient_zero (hosts d !! Source (Eth packet)), 0)
    = Returns (rcvHdr, None, (client, 1)) ->
  state client = dhcpStateNone ->
  addr client = AddrZero ->
  HandleUDP d resp packet = Panics.
Proof.
  intros Hlen Hhas Hparse Hst Haddr. unfold HandleUDP.
  replace (len resp <? sizeDHCPTotal) with false by (symmetry; apply Z.ltb_ge; lia).
  rewrite (parseDHCP_no_error_len _ _ _ _ _ Hparse), Hhas. simpl.
  rewrite Hparse. simpl. unfold dispatchType. simpl.
  rewrite Hst, Z.eqb_refl, Haddr. reflexivity.
Qed.

(** One round of the option loop on an option whose announced data does not
    fit the capacity: the guard lets it through and the slice expression
    panics. *)
Lemma scanOptions_overrun_panics {S : Type}
    (fn : dhcpOption -> S -> outcome (S * option error)) (fuel : nat)
    (incpayload : slice) (ptr : Z) (st : S) (tag optlen : Z) :
  index incpayload ptr = Returns tag ->
  index incpayload (ptr + 1) = Returns optlen ->
  tag <> 255 ->
  optlen < len incpayload ->
  cap incpayload < ptr + 2 + optlen ->
  scanOptions fn (Datatypes.S fuel) incpayload ptr st = Panics.
Proof.
  intros Htag Hlen Hne Hguard Hcap. simpl.
  pose proof (index_Returns _ _ _ Hlen) as [Hin _].
  replace (ptr + 1 <? len incpayload) with true by (symmetry; apply Z.ltb_lt; lia).
  rewrite Hlen. simpl.
  replace (optlen <? len incpayload) with true by (symmetry; apply Z.ltb_lt; lia).
  rewrite Htag. simpl.
  replace (tag =? 255) with false by (symmetry; apply Z.eqb_neq; exact Hne).
  unfold reslice.
  replace ((0 <=? ptr + 2) && (ptr + 2 <=? ptr + 2 + optlen)
           && (ptr + 2 + optlen <=? cap incpayload)) with false; [reflexivity|].
  symmetry. rewrite !andb_false_iff, !Z.leb_gt. lia.
Qed.

(** The part of C3 the code does implement: a Discover from a client in state
    None whose record holds an IPv4 address (set by a Requested-IP option)
    is answered by [respond] with [YIAddr] the requested address, or
    192.168.1.2 when that is 0.0.0.0, [SIAddr] the server's address, one
    Message-Type option of value 2, and a client record in state WaitOffer
    that remembers the sender's UDP port. *)
Lemma HandleUDP_discover (d : DHCPServer) (resp : slice) (packet : UDPPacket)
    (rcvHdr : DHCPHeader) (client : dhcpclient) (requested si : list Z) :
  sizeDHCPTotal <= len resp ->
  HasPacket packet = true ->
  parseDHCP (Payload packet) (Some visitOption)
            (default dhcpclient_zero (hosts d !! Source (Eth packet)), 0)
    = Returns (rcvHdr, None, (client, 1)) ->
  state client = dhcpStateNone ->
  As4 (addr client) = Returns requested ->
  As4 (siaddr d) = Returns si ->
  HandleUDP d resp packet
  = respond d resp packet (Source (Eth packet))
      {| addr := addr client; state := dhcpStateWaitOffer;
         port := SourcePort (UDP packet); requestlist := requestlist client |}
      {| YIAddr := (if bool_decide (requested <> [0; 0; 0; 0])
                    then requested else [192; 168; 1; 2]);
         SIAddr := si; OtherFields := OtherFields rcvHdr |}
      [ {| Opt := DHCP_MessageType; Data := Slice [2] 1 |} ].
Proof.
  intros Hlen Hhas Hparse Hst Hreq Hsi. unfold HandleUDP.
  replace (len resp <? sizeDHCPTotal) with false by (symmetry; apply Z.ltb_ge; lia).
  rewrite (parseDHCP_no_error_len _ _ _ _ _ Hparse), Hhas. simpl.
  rewrite Hparse. simpl. unfold dispatchType. simpl.
  rewrite Hst, Z.eqb_refl. simpl. rewrite Hreq, Hsi. simpl. reflexivity.
Qed.

End stacks_facts.

(** * The model run on the sample inputs *)

(** The payload view of the sample TCP packet: bytes 4 to 8 of [data]. *)
Example Payload_sample :
  stack.dataPtrs (sample.tcpPacket 5) = (4, 8, 0)
  /\ (elems <$> stack.Payload (sample.tcpPacket 5)) = Returns [104; 101; 108; 111].
Proof. split; vm_compute; reflexivity. Qed.

(** A Discover asking for 10.0.0.9 is answered with an Offer: 590 bytes,
    [yiaddr] 10.0.0.9 and [siaddr] 192.168.1.1 in the DHCP header at offset
    42, the options 53/1/2 and the end mark after the magic cookie, and the
    client recorded in state WaitOffer with port 68. *)
Example HandleUDP_discover_sample :
  exists r, stacks.HandleUDP sample.server sample.resp sample.discoverFor9 = Returns r
    /\ stacks.res_n r = 590 /\ stacks.res_err r = None
    /\ take 8 (drop 58 (elems (stacks.res_resp r))) = [10; 0; 0; 9; 192; 168; 1; 1]
    /\ take 8 (drop 278 (elems (stacks.res_resp r))) = [99; 130; 83; 99; 53; 1; 2; 255]
    /\ stacks.hosts (stacks.res_server r) !! [170; 187; 204; 221; 238; 255]
       = Some {| stacks.addr := stacks.AddrV4 [10; 0; 0; 9]; stacks.state := 1;
                 stacks.port := 68; stacks.requestlist := replicate 10 0 |}.
Proof.
  eexists. split; [vm_compute; reflexivity|]. vm_compute. repeat split.
Qed.

(** C2, failing input.  The only option of [sample.truncated] announces 4 data
    bytes where 2 remain.  The loop's test compares the length byte with the
    length of the whole buffer, so the option is sliced all the same: when the
    buffer fills its backing array [parseDHCP] panics, and when the array is
    longer the callback is handed the two bytes beyond the end of the buffer. *)
Theorem parseDHCP_slices_past_end :
  len sample.truncated = 244 /\ len sample.truncatedInBuffer = 244
  /\ stacks.parseDHCP sample.truncated (Some sample.record) [] = Panics
  /\ stacks.parseDHCP sample.truncatedInBuffer (Some sample.record) []
     = Returns (DecodeDHCPHeader (elems sample.truncatedInBuffer), None,
                [(53, [1; 2; 9; 9])]).
Proof. repeat split; vm_compute; reflexivity. Qed.

(** C3, failing input.  A Discover that carries no Requested-IP option, from a
    hardware address the server has no record of: the record's address is the
    zero [netip.Addr], [As4] panics on it, and no fallback address is
    assigned. *)
Theorem HandleUDP_discover_without_address_panics :
  stacks.hosts sample.server !! Source (stacks.Eth sample.discover) = None
  /\ stacks.HandleUDP sample.server sample.resp sample.discover = Panics.
Proof. split; vm_compute; reflexivity. Qed.

(** C4 fails in the code for a message type other than Discover and Request:
    the [switch msgType] has arms for 1 and 3 only and no default, so any
    other type leaves [err] nil.  A message of type 7 naming this server,
    from a client with no record (state None), parses without error and its
    type is wrong for that state, yet it is not dropped: [HandleUDP] returns
    590 bytes, stores a record for the sender, and writes a response (the
    magic cookie and the end mark, with no Message-Type option). *)
Lemma HandleUDP_other_type_answered :
  exists hdr client r,
    stacks.parseDHCP (stacks.Payload sample.release) (Some stacks.visitOption)
                     (stacks.dhcpclient_zero, 0)
      = Returns (hdr, None, (client, 7))
    /\ stacks.hosts sample.server !! Source (stacks.Eth sample.release) = None
    /\ stacks.state client = stacks.dhcpStateNone
    /\ stacks.HandleUDP sample.server sample.resp sample.release = Returns r
    /\ stacks.res_n r = 590 /\ stacks.res_err r = None
    /\ stacks.hosts (stacks.res_server r) !! Source (stacks.Eth sample.release)
       = Some stacks.dhcpclient_zero
    /\ take 5 (drop 278 (elems (stacks.res_resp r))) = [99; 130; 83; 99; 255].
Proof.
  eexists _, _, _. split; [vm_compute; reflexivity|].
  split; [vm_compute; reflexivity|]. split; [vm_compute; reflexivity|].
  split; [vm_compute; reflexivity|]. vm_compute. repeat split.
Qed.

(** ** The theorems with hypotheses, at sample inputs *)

(** C6 at a socket on port 80 whose slot holds the forced time and whose
    handler fails: the handler ran once and the slot is empty. *)
Lemma HandleEth_forced_witness :
  exists r, stack.HandleEth (sample.socket 80 1 1 (Some sample.echo)) sample.dst = Returns r
    /\ stack.res_calls r = [(sample.dst, sample.tcpPacket 1)]
    /\ stack.res_n r = 2
    /\ stack.res_err r = Some "handler failed"%string
    /\ stack.Rx (stack.packets (stack.res_sock r)) = 0
    /\ stack.Port (stack.res_sock r) = 80
    /\ stack.handler (stack.res_sock r) = Some sample.echo
    /\ stack.IsPendingHandling (stack.res_sock r) = false.
Proof.
  exact (HandleEth_forced (sample.socket 80 1 1 (Some sample.echo)) sample.dst sample.echo
           eq_refl eq_refl eq_refl).
Defined.

(** C7 at an open, empty socket on port 80. *)
Lemma forceResponse_spec_witness :
  (stack.forceResponse (sample.socket 80 0 1 (Some sample.echo))).1 = true
  /\ stack.IsPendingHandling
       (stack.forceResponse (sample.socket 80 0 1 (Some sample.echo))).2 = true
  /\ (stack.forceResponse
        (stack.forceResponse (sample.socket 80 0 1 (Some sample.echo))).2).1 = false.
Proof.
  pose proof (forceResponse_spec (sample.socket 80 0 1 (Some sample.echo)) eq_refl eq_refl)
    as (_ & _ & _ & _ & _ & Hsecond).
  split; [reflexivity|]. apply Hsecond; [discriminate|reflexivity].
Defined.

(** C7 as stated fails on a closed socket: [forceResponse] returns true and
    marks the slot although the port is zero, so the socket is not in state
    Open-Empty. *)
Lemma forceResponse_closed_socket :
  ~ ((stack.forceResponse (sample.socket 0 0 1 None)).1 = true
     /\ stack.Rx (stack.packets (stack.forceResponse (sample.socket 0 0 1 None)).2)
        = forcedTime
     <-> stack.Port (sample.socket 0 0 1 None) <> 0
         /\ IsZero (stack.Rx (stack.packets (sample.socket 0 0 1 None))) = true).
Proof.
  intros [Hopen _]. destruct Hopen as [Hport _]; [split; reflexivity|].
  apply Hport. reflexivity.
Qed.

(** C8 at a socket holding a real packet (received at time 5) whose control
    block refuses the segment. *)
Lemma HandleEth_recv_error_witness :
  exists r, stack.HandleEth (sample.socket 80 5 0 (Some sample.echo)) sample.dst = Returns r
    /\ stack.res_n r = 0
    /\ stack.res_err r = Some "connection closed"%string
    /\ stack.res_calls r = []
    /\ stack.res_dst r = sample.dst.
Proof.
  exact (@HandleEth_recv_error refTime refSeqs refEth refStack
           (sample.socket 80 5 0 (Some sample.echo)) sample.dst
           sample.echo (Slice (drop 4 (stack.data (sample.tcpPacket 5))) 4) 0
           "connection closed"%string eq_refl ltac:(vm_compute; reflexivity)
           ltac:(vm_compute; reflexivity) ltac:(vm_compute; reflexivity)).
Defined.

(** C10 at the same socket: the packet received at time 5 is still pending. *)
Lemma HandleEth_recv_error_keeps_slot_witness :
  exists r, stack.HandleEth (sample.socket 80 5 0 (Some sample.echo)) sample.dst = Returns r
    /\ stack.packets (stack.res_sock r) = sample.tcpPacket 5
    /\ stack.IsPendingHandling (stack.res_sock r) = true.
Proof.
  destruct (@HandleEth_recv_error_keeps_slot refTime refSeqs refEth refStack
              (sample.socket 80 5 0 (Some sample.echo))
              sample.dst sample.echo (Slice (drop 4 (stack.data (sample.tcpPacket 5))) 4) 0
              "connection closed"%string eq_refl ltac:(vm_compute; reflexivity)
           ltac:(vm_compute; reflexivity) ltac:(vm_compute; reflexivity))
    as (r & Hr & _ & Hpk & _ & _ & _ & Hpend & _).
  exists r. split; [exact Hr|]. split; [exact Hpk|]. apply Hpend. discriminate.
Defined.

(** C9 at a Request naming another server: dropped, and the table and the
    response buffer are untouched. *)
Lemma HandleUDP_zero_changes_nothing_witness :
  exists r, stacks.HandleUDP sample.server sample.resp sample.requestElsewhere = Returns r
    /\ stacks.res_n r = 0
    /\ stacks.res_err r = None
    /\ stacks.hosts (stacks.res_server r) = stacks.hosts sample.server
    /\ stacks.res_resp r = sample.resp.
Proof.
  assert (Hr : stacks.HandleUDP sample.server sample.resp sample.requestElsewhere
               = stacks.dropped None sample.server sample.resp sample.requestElsewhere)
    by (vm_compute; reflexivity).
  eexists. split; [exact Hr|]. split; [reflexivity|]. split; [reflexivity|].
  destruct (@HandleUDP_zero_changes_nothing refTime refSeqs refEth refStacks
              sample.server sample.resp sample.requestElsewhere _
              ltac:(vm_compute; discriminate) ltac:(vm_compute; discriminate)
              ltac:(vm_compute; discriminate) ltac:(vm_compute; discriminate)
              Hr eq_refl) as (Hhosts & _ & Hresp).
  split; [exact Hhosts|exact Hresp].
Defined.

(** X17 at a Request naming this server from a client that never sent a
    Discover: dropped without an error. *)
Lemma HandleUDP_drops_silently_witness :
  exists r, stacks.HandleUDP sample.server sample.resp sample.request = Returns r
    /\ stacks.res_n r = 0 /\ stacks.res_err r = None.
Proof.
  exact (@HandleUDP_drops_silently refTime refSeqs refEth refStacks
           sample.server sample.resp sample.request
           (DecodeDHCPHeader (stacks.data sample.request)) stacks.dhcpclient_zero 3
           [192; 168; 1; 1]
           ltac:(vm_compute; discriminate) ltac:(vm_compute; reflexivity)
           ltac:(vm_compute; reflexivity) ltac:(vm_compute; reflexivity)
           ltac:(right; left; split; [reflexivity | vm_compute; discriminate])).
Defined.

(** * More about package [stack] *)

Section stack_more.
Import stack.
Context `{TimeAPI} `{EthAPI} `{!StackDecls}.

Lemma array_slice_Returns (arr : list Z) (a b : Z) :
  0 <= a <= b -> b <= Z.of_nat (length arr) ->
  array_slice arr a b = Returns (Slice (drop (Z.to_nat a) arr) (b - a)).
Proof.
  intros Hab Hb. unfold array_slice.
  replace ((0 <=? a) && (a <=? b) && (b <=? Z.of_nat (length arr))) with true;
    [reflexivity|].
  symmetry. rewrite !andb_true_iff, !Z.leb_le. lia.
Qed.

(** X1. The two option views.  [TCPOptions] and [IPOptions] are nil when the
    slot holds no real packet and when the header geometry is invalid;
    otherwise [IPOptions] is [data[:tcpOptStart]] and [TCPOptions] is
    [data[tcpOptStart:payloadStart]], and neither slice expression panics. *)
Theorem options_views_spec (p : TCPPacket) :
  (HasPacket p = false ->
     TCPOptions p = Returns SliceNil /\ IPOptions p = Returns SliceNil)
  /\ (dataPtrs p = (-1, -1, -1) ->
      TCPOptions p = Returns SliceNil /\ IPOptions p = Returns SliceNil)
  /\ (forall payloadStart payloadEnd tcpOptStart,
        HasPacket p = true ->
        dataPtrs p = (payloadStart, payloadEnd, tcpOptStart) ->
        dataPtrs p <> (-1, -1, -1) ->
        IPOptions p = Returns (Slice (data p) tcpOptStart)
        /\ TCPOptions p = Returns (Slice (drop (Z.to_nat tcpOptStart) (data p))
                                         (payloadStart - tcpOptStart))).
Proof.
  split; [intros Hp; unfold TCPOptions, IPOptions; rewrite Hp; split; reflexivity|].
  split.
  { intros E. unfold TCPOptions, IPOptions. rewrite E. simpl.
    destruct (negb (HasPacket p)); split; reflexivity. }
  intros ps pe os Hp E Hne.
  pose proof (dataPtrs_bounds p ps pe os E Hne) as Hb.
  unfold TCPOptions, IPOptions, array_prefix. rewrite Hp, E. simpl.
  replace (os <? 0) with false by (symmetry; apply Z.ltb_ge; lia).
  replace (ps <? 0) with false by (symmetry; apply Z.ltb_ge; lia).
  rewrite !array_slice_Returns by lia. simpl. rewrite Z.sub_0_r. split; reflexivity.
Qed.

(** X2. On a real packet with valid geometry the three views tile the front
    of [data]: IP options, then TCP options, then payload, together exactly
    the first [payloadEnd] bytes.  Their lengths in terms of the header
    fields: the IP options take [4*IHL - SizeIPv4Header] bytes, the TCP
    options [OffsetInBytes - SizeTCPHeader], and the payload
    [TotalLength - SizeIPv4Header - OffsetInBytes] less twice the length of
    the IP options. *)
Theorem views_tile_data (p : TCPPacket) :
  HasPacket p = true ->
  dataPtrs p <> (-1, -1, -1) ->
  exists ipOpts tcpOpts payload,
    IPOptions p = Returns ipOpts /\ TCPOptions p = Returns tcpOpts
    /\ Payload p = Returns payload
    /\ elems ipOpts ++ elems tcpOpts ++ elems payload
       = take (Z.to_nat (dataPtrs p).1.2) (data p)
    /\ len ipOpts = wrap8 (4 * IHL (IP p)) - SizeIPv4Header
    /\ len tcpOpts = OffsetInBytes (TCP p) - SizeTCPHeader
    /\ len payload = TotalLength (IP p) - SizeIPv4Header - OffsetInBytes (TCP p)
                     - 2 * len ipOpts
    /\ len ipOpts + len tcpOpts + len payload <= Z.of_nat (length (data p)).
Proof.
  intros Hp Hne.
  destruct (dataPtrs_unfold p) as [(Hos & Hps & Hpe & E) | (_ & E)]; [|congruence].
  cbv zeta in Hos, Hps, Hpe, E.
  remember (wrap8 (4 * IHL (IP p)) - SizeIPv4Header) as os.
  remember (os + OffsetInBytes (TCP p) - SizeTCPHeader) as ps.
  remember (TotalLength (IP p) - os - SizeTCPHeader - SizeIPv4Header) as pe.
  exists (Slice (data p) os), (Slice (drop (Z.to_nat os) (data p)) (ps - os)),
         (Slice (drop (Z.to_nat ps) (data p)) (pe - ps)).
  assert (Hpay : Payload p = Returns (Slice (drop (Z.to_nat ps) (data p)) (pe - ps))).
  { unfold Payload. rewrite Hp, E. simpl.
    replace (ps <? 0) with false by (symmetry; apply Z.ltb_ge; lia).
    apply array_slice_Returns; lia. }
  assert (Hopt : IPOptions p = Returns (Slice (data p) os)
                 /\ TCPOptions p = Returns (Slice (drop (Z.to_nat os) (data p)) (ps - os))).
  { unfold TCPOptions, IPOptions, array_prefix. rewrite Hp, E. simpl.
    replace (os <? 0) with false by (symmetry; apply Z.ltb_ge; lia).
    replace (ps <? 0) with false by (symmetry; apply Z.ltb_ge; lia).
    rewrite !array_slice_Returns by lia. simpl. rewrite Z.sub_0_r. split; reflexivity. }
  destruct Hopt as [Hip Htcp].
  split; [exact Hip|]. split; [exact Htcp|]. split; [exact Hpay|].
  split.
  { rewrite E. unfold elems. simpl.
    rewrite app_assoc, take_take_drop.
    replace (Z.to_nat ps) with (Z.to_nat os + Z.to_nat (ps - os))%nat by lia.
    rewrite take_take_drop. f_equal. lia. }
  simpl. repeat split; lia.
Qed.

(** X3. What a call of [HandleEth] can do.  With a nil handler it panics.
    With a handler it always returns; it never changes the port, the handler
    or [LastRx]; it invokes the handler at most once, and then on the
    caller's buffer and the slot; without an invocation the buffer is
    returned as it was; and either the slot's receive time is the zero time
    afterwards, or the call is the error return of the control block (0
    bytes, an error, no invocation, the slot untouched). *)
Theorem HandleEth_effects (u : tcpSocket) (dst : slice) :
  (handler u = None -> HandleEth u dst = Panics)
  /\ (handler u <> None ->
      exists r, HandleEth u dst = Returns r
        /\ Port (res_sock r) = Port u
        /\ handler (res_sock r) = handler u
        /\ LastRx (res_sock r) = LastRx u
        /\ (res_calls r = [] \/ res_calls r = [(dst, packets u)])
        /\ (res_calls r = [] -> res_dst r = dst /\ res_n r = 0)
        /\ (Rx (packets (res_sock r)) = zeroTime
            \/ (res_n r = 0 /\ res_err r <> None /\ res_calls r = []
                /\ packets (res_sock r) = packets u))).
Proof.
  split; [intros Hh; unfold HandleEth; rewrite Hh; reflexivity|].
  intros Hh. unfold HandleEth. destruct (handler u) as [h|] eqn:Eh; [|congruence].
  destruct (HasPacket (packets u)).
  - destruct (Payload_returns (packets u)) as [payload Hpay]. rewrite Hpay. simpl.
    destruct (Recv _ _) as [tcb1 [e|]].
    + eexists. split; [reflexivity|]. simpl.
      repeat split; try (left; reflexivity); try assumption. right. repeat split. discriminate.
    + destruct (PendingSegment tcb1 0) as [seg [|]];
        (eexists; split; [reflexivity|]); simpl.
      * repeat split; try assumption; try (right; reflexivity); try (left; reflexivity);
          discriminate.
      * repeat split; try assumption; left; reflexivity.
  - eexists. split; [reflexivity|]. simpl.
    repeat split; try assumption; try (right; reflexivity); try (left; reflexivity);
      discriminate.
Qed.

(** X4. A real packet the control block accepts.  The slot is emptied in
    both cases; the handler is invoked (once, and its results returned)
    exactly when the control block reports a pending segment, and otherwise
    the call returns 0 bytes and no error with the buffer untouched. *)
Theorem HandleEth_real_packet (u : tcpSocket) (dst : slice) (h : Handler)
    (payload : slice) (tcb1 : ControlBlock) (seg : Segment) (ok : bool) :
  handler u = Some h ->
  HasPacket (packets u) = true ->
  Payload (packets u) = Returns payload ->
  Recv (tcb u) (TCPSegment (TCP (packets u)) (len payload)) = (tcb1, None) ->
  PendingSegment tcb1 0 = (seg, ok) ->
  exists r, HandleEth u dst = Returns r
    /\ tcb (res_sock r) = tcb1
    /\ Rx (packets (res_sock r)) = zeroTime
    /\ (ok = true ->
          res_calls r = [(dst, packets u)]
          /\ res_n r = h_n (h dst (packets u))
          /\ res_err r = h_err (h dst (packets u))
          /\ res_dst r = h_response (h dst (packets u)))
    /\ (ok = false ->
          res_calls r = [] /\ res_n r = 0 /\ res_err r = None /\ res_dst r = dst
          /\ data (packets (res_sock r)) = data (packets u)).
Proof.
  intros Hh Hp Hpay Hrecv Hpend. unfold HandleEth. rewrite Hh, Hp, Hpay. simpl.
  rewrite Hrecv, Hpend.
  destruct ok; (eexists; split; [reflexivity|]); simpl; repeat split; discriminate.
Qed.

(** X5. Opening and closing.  [Open] panics exactly when the port is 0 or
    the handler is nil; otherwise the socket carries that port and handler,
    its slot is empty (zero receive time, same data) and the control block is
    untouched.  [Close] leaves the slot's contents but makes the socket
    inactive: nothing is pending, [HandleEth] panics, and [forceResponse]
    still reports success. *)
Theorem Open_Close_spec (u : tcpSocket) (port : Z) (h : option Handler) :
  (Open u port h = Panics <-> port = 0 \/ h = None)
  /\ (forall u', Open u port h = Returns u' ->
        Port u' = port /\ handler u' = h /\ tcb u' = tcb u
        /\ Rx (packets u') = zeroTime /\ data (packets u') = data (packets u))
  /\ packets (Close u) = packets u
  /\ IsPendingHandling (Close u) = false
  /\ (forall dst, HandleEth (Close u) dst = Panics)
  /\ (forceResponse (Close u)).1 = true.
Proof.
  split.
  { unfold Open. split.
    - destruct h; [|right; reflexivity].
      destruct (port =? 0) eqn:E; [|discriminate].
      intros _. left. apply Z.eqb_eq. exact E.
    - intros [Hp | Hh]; [|subst h; reflexivity].
      subst port. destruct h; reflexivity. }
  split.
  { intros u' Hx. unfold Open in Hx. destruct h; [|discriminate].
    destruct (port =? 0); [discriminate|]. inversion Hx; subst u'. simpl.
    repeat split. }
  split; [reflexivity|]. split; [reflexivity|].
  split; [intros dst; reflexivity|reflexivity].
Qed.

(** X6. [pending] counts real packets only.  It is 1 exactly when the slot
    holds a real packet and 0 otherwise; a real packet on an open socket is
    pending handling; and after a successful [forceResponse] on an open
    socket the socket is pending handling while [pending] is 0. *)
Theorem pending_counts_real_packets (u : tcpSocket) :
  IsZero forcedTime = false ->
  (pending u = 1 <-> HasPacket (packets u) = true)
  /\ (pending u = 0 <-> HasPacket (packets u) = false)
  /\ (pending u = 1 -> Port u <> 0 -> IsPendingHandling u = true)
  /\ ((forceResponse u).1 = true -> pending (forceResponse u).2 = 0)
  /\ (Port u <> 0 -> (forceResponse u).1 = true ->
       IsPendingHandling (forceResponse u).2 = true
       /\ NeedsHandling (forceResponse u).2 = true
       /\ pending (forceResponse u).2 = 0).
Proof.
  intros Hf.
  assert (Hforced : (forceResponse u).1 = true -> pending (forceResponse u).2 = 0).
  { unfold forceResponse. destruct (IsPendingHandling u); simpl; [discriminate|].
    intros _. unfold pending, HasPacket. simpl.
    rewrite bool_decide_eq_true_2 by reflexivity. reflexivity. }
  split; [unfold pending; destruct (HasPacket (packets u)); split; congruence|].
  split; [unfold pending; destruct (HasPacket (packets u)); split; congruence|].
  split.
  { unfold pending. destruct (HasPacket (packets u)) eqn:Hp; [|discriminate].
    intros _ Hport. apply IsPendingHandling_true. split; [exact Hport|].
    apply HasPacket_true in Hp. tauto. }
  split; [exact Hforced|].
  intros Hport Ht.
  assert (Hpend : IsPendingHandling (forceResponse u).2 = true).
  { unfold forceResponse in *. destruct (IsPendingHandling u); simpl in *; [discriminate|].
    apply IsPendingHandling_true. simpl. split; assumption. }
  split; [exact Hpend|]. split; [exact Hpend|]. apply Hforced. exact Ht.
Qed.

(** X7. A forced response runs through dispatch and frees the slot: after a
    successful [forceResponse] on a socket with a handler, [HandleEth] invokes
    the handler once, on the slot marked with the forced time, and a further
    [forceResponse] succeeds again if the port is unchanged. *)
Theorem forceResponse_HandleEth_cycle (u : tcpSocket) (dst : slice) (h : Handler) :
  IsZero zeroTime = true ->
  handler u = Some h ->
  (forceResponse u).1 = true ->
  exists r, HandleEth (forceResponse u).2 dst = Returns r
    /\ res_calls r = [(dst, set_Rx (packets u) forcedTime)]
    /\ res_n r = h_n (h dst (set_Rx (packets u) forcedTime))
    /\ res_err r = h_err (h dst (set_Rx (packets u) forcedTime))
    /\ IsPendingHandling (res_sock r) = false
    /\ (forceResponse (res_sock r)).1 = true.
Proof.
  intros Hz Hh Ht. unfold forceResponse in Ht |- * at 1.
  destruct (IsPendingHandling u); simpl in Ht; [discriminate|]. simpl.
  unfold HandleEth. simpl. rewrite Hh.
  assert (Hno : HasPacket (set_Rx (packets u) forcedTime) = false).
  { unfold HasPacket. simpl. rewrite bool_decide_eq_true_2 by reflexivity. reflexivity. }
  rewrite Hno. eexists. split; [reflexivity|]. simpl.
  assert (Hnp : forall s : tcpSocket, Rx (packets s) = zeroTime -> IsPendingHandling s = false).
  { intros s Hs. apply IsPendingHandling_false. right. rewrite Hs. exact Hz. }
  repeat split.
  - apply Hnp. reflexivity.
  - unfold forceResponse. rewrite Hnp by reflexivity. reflexivity.
Qed.

End stack_more.

(** * More about package [stacks] *)

Lemma index_middle (front back : list Z) (x n : Z) :
  Z.of_nat (length front) < n ->
  index (Slice (front ++ x :: back) n) (Z.of_nat (length front)) = Returns x.
Proof.
  intros Hn. unfold index. simpl.
  replace ((0 <=? Z.of_nat (length front)) && (Z.of_nat (length front) <? n)) with true
    by (symmetry; rewrite andb_true_iff, Z.leb_le, Z.ltb_lt; lia).
  rewrite Nat2Z.id, list_lookup_middle by reflexivity. reflexivity.
Qed.

Lemma index_at (store front back : list Z) (n : Z) (k : nat) (x : Z) :
  store = front ++ back ->
  back !! k = Some x ->
  Z.of_nat (length front + k) < n ->
  index (Slice store n) (Z.of_nat (length front) + Z.of_nat k) = Returns x.
Proof.
  intros -> Hk Hn. unfold index. simpl.
  replace ((0 <=? Z.of_nat (length front) + Z.of_nat k)
           && (Z.of_nat (length front) + Z.of_nat k <? n)) with true
    by (symmetry; rewrite andb_true_iff, Z.leb_le, Z.ltb_lt; lia).
  replace (Z.to_nat (Z.of_nat (length front) + Z.of_nat k)) with (length front + k)%nat
    by lia.
  rewrite lookup_app_r by lia.
  replace (length front + k - length front)%nat with k by lia.
  rewrite Hk. reflexivity.
Qed.

Lemma wireOptions_length (opts : list (Z * list Z)) :
  (2 * length opts <= length (wireOptions opts))%nat.
Proof.
  induction opts as [|[tag d] rest IH]; simpl; [lia|].
  rewrite length_app. lia.
Qed.

(** The views of a wire form carry exactly the options' tags and data. *)
Lemma optionViews_elems (opts : list (Z * list Z)) :
  forall (front back : list Z),
    map (fun o => (stacks.Opt o, elems (stacks.Data o)))
        (optionViews (front ++ wireOptions opts ++ back) (length front) opts)
    = opts.
Proof.
  induction opts as [|[tag d] rest IH]; intros front back; simpl; [reflexivity|].
  f_equal.
  - f_equal. unfold elems. simpl. rewrite Nat2Z.id.
    replace (front ++ tag :: Z.of_nat (length d) :: (d ++ wireOptions rest) ++ back)
      with ((front ++ [tag; Z.of_nat (length d)]) ++ d ++ wireOptions rest ++ back)
      by lnorm.
    replace (length front + 2)%nat with (length (front ++ [tag; Z.of_nat (length d)]))
      by (rewrite length_app; reflexivity).
    rewrite drop_app_length, take_app_length. reflexivity.
  - specialize (IH (front ++ tag :: Z.of_nat (length d) :: d) back).
    replace (length (front ++ tag :: Z.of_nat (length d) :: d))
      with (length front + 2 + length d)%nat in IH
      by (rewrite length_app; simpl; lia).
    etrans; [|exact IH]. f_equal. f_equal. lnorm.
Qed.

Lemma length_overwrite (st w : list Z) (off : nat) :
  length (overwrite st off w) = length st.
Proof.
  unfold overwrite. rewrite !length_app, !length_take, length_drop. lia.
Qed.

Lemma reslice_Returns (s v : slice) (a b : Z) :
  reslice s a b = Returns v -> 0 <= a <= b /\ b <= cap s /\ len v = b - a.
Proof.
  unfold reslice. destruct ((0 <=? a) && (a <=? b) && (b <=? cap s)) eqn:E; [|discriminate].
  rewrite !andb_true_iff, !Z.leb_le in E. intros Hv; inversion Hv; subst.
  split; [lia|]. split; [lia|].
  destruct s; [|reflexivity]. unfold cap in E. simpl in *. lia.
Qed.

Lemma reslice_ok (s : slice) (a b : Z) :
  0 <= a <= b -> b <= cap s -> exists v, reslice s a b = Returns v /\ len v = b - a.
Proof.
  intros Hab Hb. unfold reslice.
  replace ((0 <=? a) && (a <=? b) && (b <=? cap s)) with true
    by (symmetry; rewrite !andb_true_iff, !Z.leb_le; lia).
  eexists. split; [reflexivity|].
  destruct s; [|reflexivity]. unfold cap in Hb. simpl in *. lia.
Qed.

(** Overwriting the middle segment of a list. *)
Lemma overwrite_mid (st A B C w : list Z) (off : nat) :
  st = A ++ B ++ C -> length A = off -> length B = length w ->
  overwrite st off w = A ++ w ++ C.
Proof.
  intros -> <- HB. unfold overwrite.
  rewrite take_app_length.
  rewrite (take_ge w) by (rewrite !length_app; lia).
  rewrite <- drop_drop, drop_app_length, <- HB, drop_app_length. reflexivity.
Qed.

(** Overwriting the head of a list. *)
Lemma overwrite_prefix (st w : list Z) :
  (length w <= length st)%nat -> overwrite st 0 w = w ++ drop (length w) st.
Proof.
  intros Hl. unfold overwrite. simpl. rewrite take_ge by lia. reflexivity.
Qed.

(** The store of the response buffer after [HandleUDP]'s writes, before the
    headers are put: [D] is the offset of the DHCP message, [S] the size of
    the DHCP header, [N] the length of the buffer. *)
Lemma frame_bytes (st enc opt : list Z) (D K N : nat) (put : list Z -> list Z) :
  (D + K + 504 <= N)%nat -> (N <= length st)%nat -> (14 <= K)%nat ->
  length enc = K -> length opt = 3%nat ->
  (forall b, (K <= length b)%nat -> put b = enc ++ drop K b) ->
  let st1 := overwrite st (D + 14) (replicate (N - (D + 14)) 0) in
  let V := take (N - D) (drop D st1) in
  let st2 := overwrite st1 D (take (length V) (put V)) in
  let st3 := overwrite st2 (D + K + 192) [99; 130; 83; 99] in
  let st4 := overwrite st3 (D + K + 192 + 4) opt in
  let st5 := overwrite st4 (D + K + 192 + 7) [255] in
  st5 = take D st ++ enc ++ replicate 192 0 ++ [99; 130; 83; 99] ++ opt ++ [255]
        ++ replicate (N - (D + K + 192) - 8) 0 ++ drop N st.
Proof.
  intros HN Hst HS Henc Hopt Hput.
  set (P := take D st). set (C := drop N st).
  assert (HP : length P = D) by (unfold P; rewrite length_take; lia).
  assert (Est : st = P ++ take 14 (drop D st) ++ take (N - (D + 14)) (drop (D + 14) st) ++ C).
  { unfold P, C. rewrite <- (take_drop D st) at 1. f_equal.
    rewrite <- (take_drop 14 (drop D st)) at 1. f_equal.
    rewrite drop_drop.
    rewrite <- (take_drop (N - (D + 14)) (drop (D + 14) st)) at 1. f_equal.
    rewrite drop_drop. f_equal. lia. }
  set (Q := take 14 (drop D st)) in *.
  assert (HQ : length Q = 14%nat) by (unfold Q; rewrite length_take, length_drop; lia).
  intros st1.
  assert (E1 : st1 = P ++ Q ++ replicate (N - (D + 14)) 0 ++ C).
  { unfold st1.
    rewrite (overwrite_mid st (P ++ Q) (take (N - (D + 14)) (drop (D + 14) st)) C).
    - rewrite <- app_assoc. reflexivity.
    - rewrite <- app_assoc. exact Est.
    - lens.
    - lens. }
  intros V.
  assert (EV : V = Q ++ replicate (N - (D + 14)) 0).
  { unfold V. rewrite E1. rewrite drop_app_length' by (symmetry; exact HP).
    rewrite app_assoc. rewrite take_app_length' by (lens). reflexivity. }
  assert (EputV : put V = enc ++ replicate (N - D - K) 0).
  { rewrite Hput by (rewrite EV; lens). f_equal. rewrite EV.
    rewrite drop_app_ge by lia. rewrite HQ, drop_replicate. f_equal. lia. }
  intros st2.
  assert (E2 : st2 = P ++ enc ++ replicate (N - D - K) 0 ++ C).
  { unfold st2. rewrite EputV. rewrite take_ge by (rewrite EV; lens).
    rewrite (overwrite_mid st1 P (Q ++ replicate (N - (D + 14)) 0) C).
    - rewrite <- app_assoc. reflexivity.
    - rewrite E1, <- app_assoc. reflexivity.
    - exact HP.
    - lens. }
  intros st3.
  assert (E3 : st3 = P ++ enc ++ replicate 192 0 ++ [99; 130; 83; 99]
                     ++ replicate (N - (D + K + 192) - 4) 0 ++ C).
  { unfold st3.
    rewrite (overwrite_mid st2 (P ++ enc ++ replicate 192 0) (replicate 4 0)
               (replicate (N - (D + K + 192) - 4) 0 ++ C)).
    - rewrite <- ?app_assoc. reflexivity.
    - rewrite E2. replace (N - D - K)%nat with (192 + (4 + (N - (D + K + 192) - 4)))%nat by lia.
      rewrite !replicate_add, <- ?app_assoc. reflexivity.
    - lens.
    - lens. }
  intros st4.
  assert (E4 : st4 = P ++ enc ++ replicate 192 0 ++ [99; 130; 83; 99] ++ opt
                     ++ replicate (N - (D + K + 192) - 7) 0 ++ C).
  { unfold st4.
    rewrite (overwrite_mid st3 (P ++ enc ++ replicate 192 0 ++ [99; 130; 83; 99])
               (replicate 3 0) (replicate (N - (D + K + 192) - 7) 0 ++ C)).
    - rewrite <- ?app_assoc. reflexivity.
    - rewrite E3.
      replace (N - (D + K + 192) - 4)%nat with (3 + (N - (D + K + 192) - 7))%nat by lia.
      rewrite !replicate_add, <- ?app_assoc. reflexivity.
    - lens.
    - lens. }
  intros st5. unfold st5.
  rewrite (overwrite_mid st4 (P ++ enc ++ replicate 192 0 ++ [99; 130; 83; 99] ++ opt)
             (replicate 1 0) (replicate (N - (D + K + 192) - 8) 0 ++ C)).
  - rewrite <- ?app_assoc. reflexivity.
  - rewrite E4.
    replace (N - (D + K + 192) - 7)%nat with (1 + (N - (D + K + 192) - 8))%nat by lia.
    rewrite !replicate_add, <- ?app_assoc. reflexivity.
  - lens.
  - lens.
Qed.

(** Reslicing and ranging over a slice that is not nil. *)
Lemma reslice_Slice (st : list Z) (n a b : Z) :
  0 <= a <= b -> b <= Z.of_nat (length st) ->
  reslice (Slice st n) a b = Returns (Slice (drop (Z.to_nat a) st) (b - a)).
Proof.
  intros Hab Hb. unfold reslice, cap. cbn [store_of].
  replace ((0 <=? a) && (a <=? b) && (b <=? Z.of_nat (length st))) with true
    by (symmetry; rewrite !andb_true_iff, !Z.leb_le; lia).
  reflexivity.
Qed.

Lemma elems_Slice (st : list Z) (n : Z) : elems (Slice st n) = take (Z.to_nat n) st.
Proof. reflexivity. Qed.

Section stacks_more.
Import stacks.
Context `{TimeAPI} `{EthAPI} `{!StacksDecls}.

(** The option loop on a wire form: it calls the callback on each option in
    turn and stops at what ends the options. *)
Lemma scanOptions_wire {S : Type} (fn : dhcpOption -> S -> outcome (S * option error))
    (store term extra : list Z) (n : Z) :
  endsOptions term ->
  forall (opts : list (Z * list Z)) (front : list Z) (fuel : nat) (st : S),
    Forall wireOption opts ->
    store = front ++ wireOptions opts ++ term ++ extra ->
    n = Z.of_nat (length front + length (wireOptions opts) + length term) ->
    (length opts < fuel)%nat ->
    scanOptions fn fuel (Slice store n) (Z.of_nat (length front)) st
    = visitAll fn (optionViews store (length front) opts) st.
Proof.
  intros Hterm. induction opts as [|[tag d] rest IH];
    intros front fuel st Hwf Hstore Hn Hfuel.
  - destruct fuel as [|fuel]; [lia|]. simpl in *. subst store.
    destruct Hterm as [-> | [[b ->] | [rest ->]]]; simpl in Hn.
    + replace (Z.of_nat (length front) + 1 <? n) with false
        by (symmetry; apply Z.ltb_ge; lia).
      reflexivity.
    + replace (Z.of_nat (length front) + 1 <? n) with false
        by (symmetry; apply Z.ltb_ge; lia).
      reflexivity.
    + destruct rest as [|r0 rest]; simpl in Hn.
      * replace (Z.of_nat (length front) + 1 <? n) with false
          by (symmetry; apply Z.ltb_ge; lia).
        reflexivity.
      * replace (Z.of_nat (length front) + 1 <? n) with true
          by (symmetry; apply Z.ltb_lt; lia).
        match goal with |- context [index (Slice ?s n) (?q + 1)] =>
          assert (Hx : index (Slice s n) (q + 1) = Returns r0)
            by (apply (index_at _ front (255 :: r0 :: rest ++ extra) n 1%nat r0);
                [lnorm | reflexivity | lia]);
          assert (Hy : index (Slice s n) q = Returns 255)
            by (replace q with (q + Z.of_nat 0) by (simpl; lia);
                apply (index_at _ front (255 :: r0 :: rest ++ extra) n 0%nat 255);
                [lnorm | reflexivity | lia])
        end.
        rewrite Hx. cbn [mbind outcome_mbind outcome_bind].
        destruct (r0 <? n); [|reflexivity].
        rewrite Hy. reflexivity.
  - destruct fuel as [|fuel]; [lia|]. simpl in Hfuel.
    inversion Hwf as [|o l [Htag Hd] Hrest]; subst o l. simpl in Htag, Hd.
    simpl wireOptions in Hstore, Hn. simpl in Hn. rewrite length_app in Hn.
    assert (Hlen : index (Slice store n) (Z.of_nat (length front) + 1)
                   = Returns (Z.of_nat (length d))).
    { apply (index_at _ front
               (tag :: Z.of_nat (length d) :: d ++ wireOptions rest ++ term ++ extra)
               n 1%nat); [subst store; lnorm | reflexivity | lia]. }
    assert (Htg : index (Slice store n) (Z.of_nat (length front)) = Returns tag).
    { replace (Z.of_nat (length front)) with (Z.of_nat (length front) + Z.of_nat 0)
        by (simpl; lia).
      apply (index_at _ front
               (tag :: Z.of_nat (length d) :: d ++ wireOptions rest ++ term ++ extra)
               n 0%nat); [subst store; lnorm | reflexivity | lia]. }
    assert (Hcap : Z.of_nat (length front) + 2 + Z.of_nat (length d)
                   <= Z.of_nat (length store)).
    { subst store. rewrite !length_app. simpl. rewrite !length_app. lia. }
    cbn [scanOptions].
    replace (Z.of_nat (length front) + 1 <? len (Slice store n)) with true
      by (symmetry; apply Z.ltb_lt; simpl; lia).
    rewrite Hlen. cbn [mbind outcome_mbind outcome_bind].
    replace (Z.of_nat (length d) <? len (Slice store n)) with true
      by (symmetry; apply Z.ltb_lt; simpl; lia).
    rewrite Htg. cbn [mbind outcome_mbind outcome_bind].
    replace (tag =? 255) with false by (symmetry; apply Z.eqb_neq; lia).
    unfold reslice, cap. cbn [store_of].
    replace ((0 <=? Z.of_nat (length front) + 2)
             && (Z.of_nat (length front) + 2
                 <=? Z.of_nat (length front) + 2 + Z.of_nat (length d))
             && (Z.of_nat (length front) + 2 + Z.of_nat (length d)
                 <=? Z.of_nat (length store))) with true
      by (symmetry; rewrite !andb_true_iff, !Z.leb_le; lia).
    cbn [mbind outcome_mbind outcome_bind optionViews visitAll].
    replace (Z.to_nat (Z.of_nat (length front) + 2)) with (length front + 2)%nat by lia.
    replace (Z.of_nat (length front) + 2 + Z.of_nat (length d)
             - (Z.of_nat (length front) + 2)) with (Z.of_nat (length d)) by lia.
    destruct (fn _ st) as [[st' [e|]]| |]; cbn [mbind outcome_mbind outcome_bind];
      try reflexivity.
    replace (Z.of_nat (length front) + (Z.of_nat (length d) + 2))
      with (Z.of_nat (length (front ++ tag :: Z.of_nat (length d) :: d)))
      by (rewrite length_app; simpl; lia).
    replace (length front + 2 + length d)%nat
      with (length (front ++ tag :: Z.of_nat (length d) :: d))
      by (rewrite length_app; simpl; lia).
    apply IH.
    + exact Hrest.
    + subst store. lnorm.
    + subst n. rewrite length_app. simpl. lia.
    + lia.
Qed.

(** X8. [parseDHCP] on a payload whose options are well formed.  After the
    fixed header, the two legacy fields and the magic cookie, the buffer holds
    the wire form of [opts] followed by the end of the buffer, a lone byte or
    the end mark.  Then the callback is invoked on each option once, in
    order, on a view holding exactly that option's data, and the scan stops
    at the first error the callback returns; the header is the decoded
    buffer.  Bytes beyond the length of the buffer are not looked at. *)
Theorem parseDHCP_visits_options {S : Type}
    (fn : dhcpOption -> S -> outcome (S * option error))
    (pre : list Z) (opts : list (Z * list Z)) (term extra : list Z) (st : S) :
  Z.of_nat (length pre) = SizeDHCPHeader + sizeSName + sizeFILE + 4 ->
  Forall wireOption opts ->
  endsOptions term ->
  opts <> [] \/ term <> [] ->
  parseDHCP (Slice (pre ++ wireOptions opts ++ term ++ extra)
                   (Z.of_nat (length (pre ++ wireOptions opts ++ term))))
            (Some fn) st
  = (r ← visitAll fn (optionViews (pre ++ wireOptions opts ++ term ++ extra)
                                  (length pre) opts) st;
     Returns (DecodeDHCPHeader (pre ++ wireOptions opts ++ term), r.2, r.1))
  /\ map (fun o => (Opt o, elems (Data o)))
         (optionViews (pre ++ wireOptions opts ++ term ++ extra) (length pre) opts)
     = opts.
Proof.
  intros Hpre Hwf Hterm Hne. split; [|apply optionViews_elems].
  pose proof (wireOptions_length opts) as Hw.
  assert (Hmore : (0 < length (wireOptions opts) + length term)%nat).
  { destruct Hne as [Ho | Ht].
    - destruct opts; [congruence|]. simpl in *. lia.
    - destruct term; [congruence|]. simpl. lia. }
  unfold parseDHCP. cbn [len]. rewrite !length_app.
  replace (Z.of_nat (length pre + (length (wireOptions opts) + length term))
           <? SizeDHCPHeader) with false
    by (symmetry; apply Z.ltb_ge; unfold sizeSName, sizeFILE in Hpre; lia).
  replace (SizeDHCPHeader + sizeSName + sizeFILE + 4
           >=? Z.of_nat (length pre + (length (wireOptions opts) + length term)))
    with false by (symmetry; rewrite Z.geb_leb; apply Z.leb_gt; lia).
  rewrite <- Hpre.
  rewrite (scanOptions_wire fn _ term extra _ Hterm opts pre _ st Hwf eq_refl)
    by (rewrite ?Nat2Z.id; lia).
  unfold elems. cbn [len store_of]. rewrite Nat2Z.id.
  replace (pre ++ wireOptions opts ++ term ++ extra)
    with ((pre ++ wireOptions opts ++ term) ++ extra) by lnorm.
  replace (length pre + (length (wireOptions opts) + length term))%nat
    with (length (pre ++ wireOptions opts ++ term))
    by (rewrite !length_app; reflexivity).
  rewrite take_app_length. reflexivity.
Qed.

(** X9. The three length and argument checks of [parseDHCP].  A payload
    shorter than the fixed header, a nil callback, and a payload that ends at
    or before the first option byte each give an error; the callback is not
    invoked; and only in the last case is the header decoded. *)
Theorem parseDHCP_rejects {S : Type} (incpayload : slice)
    (fn : dhcpOption -> S -> outcome (S * option error)) (st : S) :
  (len incpayload < SizeDHCPHeader ->
     forall fn', parseDHCP incpayload fn' st
     = Returns (DHCPHeader_zero, Some "short payload to parse DHCP"%string, st))
  /\ (SizeDHCPHeader <= len incpayload ->
      parseDHCP incpayload None st
      = Returns (DHCPHeader_zero, Some "nil function to parse DHCP"%string, st))
  /\ (SizeDHCPHeader <= len incpayload <= SizeDHCPHeader + sizeSName + sizeFILE + 4 ->
      parseDHCP incpayload (Some fn) st
      = Returns (DecodeDHCPHeader (elems incpayload),
                 Some "short payload to parse DHCP options"%string, st))
  /\ (forall hdr st', parseDHCP incpayload (Some fn) st = Returns (hdr, None, st') ->
      SizeDHCPHeader + sizeSName + sizeFILE + 4 < len incpayload
      /\ SizeDHCPHeader <= len incpayload
      /\ hdr = DecodeDHCPHeader (elems incpayload)).
Proof.
  unfold parseDHCP. split; [|split; [|split]].
  - intros Hl fn'.
    replace (len incpayload <? SizeDHCPHeader) with true
      by (symmetry; apply Z.ltb_lt; lia).
    reflexivity.
  - intros Hl.
    replace (len incpayload <? SizeDHCPHeader) with false
      by (symmetry; apply Z.ltb_ge; lia).
    reflexivity.
  - intros Hl.
    replace (len incpayload <? SizeDHCPHeader) with false
      by (symmetry; apply Z.ltb_ge; lia).
    replace (SizeDHCPHeader + sizeSName + sizeFILE + 4 >=? len incpayload) with true
      by (symmetry; rewrite Z.geb_leb; apply Z.leb_le; lia).
    reflexivity.
  - intros hdr st'.
    destruct (len incpayload <? SizeDHCPHeader) eqn:E1; [discriminate|].
    destruct (_ >=? len incpayload) eqn:E2; [discriminate|].
    intros Hr. apply bind_Returns in Hr. destruct Hr as (r & _ & Hr).
    inversion Hr; subst.
    apply Z.ltb_ge in E1. rewrite Z.geb_leb in E2. apply Z.leb_gt in E2.
    repeat split; lia.
Qed.

(** What the callback of [HandleUDP] can do to the client record: no error,
    state and port kept, a request list of 10 bytes stays one, and the address
    is kept unless the client is in state None, where it may become an IPv4
    address. *)
Lemma visitOption_inv (opt : dhcpOption) (client client' : dhcpclient)
    (msgType msgType' : Z) (err : option error) :
  visitOption opt (client, msgType) = Returns ((client', msgType'), err) ->
  err = None
  /\ state client' = state client
  /\ port client' = port client
  /\ (length (requestlist client) = 10%nat -> length (requestlist client') = 10%nat)
  /\ (state client <> dhcpStateNone -> addr client' = addr client)
  /\ (addr client' = addr client \/ exists b, addr client' = AddrV4 b).
Proof.
  unfold visitOption.
  destruct (Opt opt =? DHCP_MessageType).
  { destruct (len (Data opt) =? 1).
    - intros Hr. apply bind_Returns in Hr. destruct Hr as (b & _ & Hr).
      inversion Hr; subst. repeat split; auto.
    - intros Hr; inversion Hr; subst. repeat split; auto. }
  destruct (Opt opt =? DHCP_ParameterRequestList).
  { intros Hr; inversion Hr; subst. simpl. repeat split; auto.
    intros _. rewrite length_overwrite. reflexivity. }
  destruct (Opt opt =? DHCP_RequestedIPaddress).
  { destruct ((len (Data opt) =? 4) && (state client =? dhcpStateNone)) eqn:E.
    - intros Hr; inversion Hr; subst. simpl. repeat split; auto.
      + intros Hs. apply andb_true_iff in E. destruct E as [_ E].
        apply Z.eqb_eq in E. congruence.
      + right. eexists. reflexivity.
    - intros Hr; inversion Hr; subst. repeat split; auto. }
  intros Hr; inversion Hr; subst. repeat split; auto.
Qed.

(** The same through the whole option loop. *)
Lemma scanOptions_visit_inv (incpayload : slice) :
  forall (fuel : nat) (ptr : Z) (client client' : dhcpclient) (msgType msgType' : Z)
         (err : option error),
    scanOptions visitOption fuel incpayload ptr (client, msgType)
    = Returns ((client', msgType'), err) ->
    err = None
    /\ state client' = state client
    /\ port client' = port client
    /\ (length (requestlist client) = 10%nat -> length (requestlist client') = 10%nat)
    /\ (state client <> dhcpStateNone -> addr client' = addr client)
    /\ (addr client' = addr client \/ exists b, addr client' = AddrV4 b).
Proof.
  induction fuel as [|fuel IH]; intros ptr client client' msgType msgType' err;
    cbn [scanOptions]; [discriminate|].
  assert (Hstop : Returns ((client, msgType), @None error)
                  = Returns ((client', msgType'), err) ->
                  err = None /\ state client' = state client /\ port client' = port client
                  /\ (length (requestlist client) = 10%nat ->
                      length (requestlist client') = 10%nat)
                  /\ (state client <> dhcpStateNone -> addr client' = addr client)
                  /\ (addr client' = addr client \/ exists b, addr client' = AddrV4 b)).
  { intros Hr; inversion Hr; subst. repeat split; auto. }
  destruct (ptr + 1 <? len incpayload); [|exact Hstop].
  intros Hr. apply bind_Returns in Hr. destruct Hr as (lenByte & _ & Hr).
  destruct (lenByte <? len incpayload); [|exact (Hstop Hr)].
  apply bind_Returns in Hr. destruct Hr as (tag & _ & Hr).
  destruct (tag =? 255); [exact (Hstop Hr)|].
  apply bind_Returns in Hr. destruct Hr as (optionData & _ & Hr).
  apply bind_Returns in Hr. destruct Hr as ([[client1 msgType1] err1] & Hv & Hr).
  apply visitOption_inv in Hv. destruct Hv as (He & Hs & Hp & Hl & Ha & Hb).
  subst err1. apply IH in Hr. destruct Hr as (He' & Hs' & Hp' & Hl' & Ha' & Hb').
  split; [exact He'|]. split; [congruence|]. split; [congruence|].
  split; [auto|]. split.
  - intros Hn. rewrite Ha' by congruence. auto.
  - destruct Hb' as [Hb' | Hb']; [|right; exact Hb'].
    rewrite Hb'. exact Hb.
Qed.

(** The results of the [switch] on the message type that let a response be
    built. *)
Lemma dispatchType_no_error (d : DHCPServer) (packet : UDPPacket) (msgType : Z)
    (rcvHdr hdr1 : DHCPHeader) (client client1 : dhcpclient)
    (Options : list dhcpOption) :
  dispatchType d packet msgType rcvHdr client = Returns (hdr1, Options, client1, None) ->
  (msgType = 1 /\ state client = dhcpStateNone
   /\ client1 = {| addr := addr client; state := dhcpStateWaitOffer;
                   port := SourcePort (UDP packet); requestlist := requestlist client |}
   /\ Options = [ {| Opt := DHCP_MessageType; Data := Slice [2] 1 |} ]
   /\ exists requested si,
        As4 (addr client) = Returns requested /\ As4 (siaddr d) = Returns si
        /\ hdr1 = {| YIAddr := next d requested; SIAddr := si;
                     OtherFields := OtherFields rcvHdr |})
  \/ (msgType = 3 /\ state client = dhcpStateWaitOffer /\ client1 = client
      /\ hdr1 = rcvHdr
      /\ Options = [ {| Opt := DHCP_MessageType; Data := Slice [5] 1 |} ])
  \/ (msgType <> 1 /\ msgType <> 3 /\ client1 = client /\ hdr1 = rcvHdr
      /\ Options = []).
Proof.
  unfold dispatchType.
  destruct (msgType =? 1) eqn:E1.
  { apply Z.eqb_eq in E1.
    destruct (state client =? dhcpStateNone) eqn:Es; simpl; [|discriminate].
    apply Z.eqb_eq in Es. intros Hr.
    apply bind_Returns in Hr. destruct Hr as (requested & Hreq & Hr).
    apply bind_Returns in Hr. destruct Hr as (si & Hsi & Hr).
    inversion Hr; subst. left. repeat split; auto. eauto. }
  apply Z.eqb_neq in E1.
  destruct (msgType =? 3) eqn:E3.
  { apply Z.eqb_eq in E3.
    destruct (state client =? dhcpStateWaitOffer) eqn:Es; simpl; [|discriminate].
    apply Z.eqb_eq in Es. intros Hr. inversion Hr; subst. right. left.
    repeat split; auto. }
  apply Z.eqb_neq in E3. intros Hr. inversion Hr; subst. right. right.
  repeat split; auto.
Qed.

(** The paths through [HandleUDP] that return: the three early exits, a parse
    error, a drop after a parse without error, and a response. *)
Lemma HandleUDP_cases (d : DHCPServer) (resp : slice) (packet : UDPPacket)
    (r : UDPResult) :
  HandleUDP d resp packet = Returns r ->
  (len resp < sizeDHCPTotal
   /\ Returns r = dropped (Some "short payload to marshall DHCP"%string) d resp packet)
  \/ (sizeDHCPTotal <= len resp /\ HasPacket packet = true
      /\ len (Payload packet) < SizeDHCPHeader
      /\ Returns r = dropped (Some "short payload to parse DHCP"%string) d resp packet)
  \/ (sizeDHCPTotal <= len resp /\ HasPacket packet = false
      /\ Returns r = dropped None d resp packet)
  \/ (sizeDHCPTotal <= len resp /\ HasPacket packet = true
      /\ SizeDHCPHeader <= len (Payload packet)
      /\ exists rcvHdr err client msgType,
           parseDHCP (Payload packet) (Some visitOption)
                     (default dhcpclient_zero (hosts d !! Source (Eth packet)), 0)
           = Returns (rcvHdr, err, (client, msgType))
           /\ ((err <> None /\ Returns r = dropped err d resp packet)
               \/ (err = None /\ Returns r = dropped None d resp packet)
               \/ (err = None
                   /\ (msgType = 1 \/ exists si, As4 (siaddr d) = Returns si
                                               /\ SIAddr rcvHdr = si)
                   /\ exists hdr1 Options client1,
                        dispatchType d packet msgType rcvHdr client
                        = Returns (hdr1, Options, client1, None)
                        /\ respond d resp packet (Source (Eth packet)) client1 hdr1 Options
                           = Returns r))).
Proof.
  unfold HandleUDP.
  destruct (len resp <? sizeDHCPTotal) eqn:E1.
  { apply Z.ltb_lt in E1. intros Hr. left. split; [lia|]. symmetry. exact Hr. }
  apply Z.ltb_ge in E1.
  destruct (HasPacket packet) eqn:Ehp; simpl.
  2:{ intros Hr. right. right. left. repeat split; auto. }
  destruct (len (Payload packet) <? SizeDHCPHeader) eqn:E2.
  { apply Z.ltb_lt in E2. intros Hr. right. left. repeat split; auto. }
  apply Z.ltb_ge in E2.
  intros Hr. right. right. right. repeat split; auto.
  apply bind_Returns in Hr.
  destruct Hr as ([[rcvHdr err] [client msgType]] & Hparse & Hr).
  exists rcvHdr, err, client, msgType. split; [exact Hparse|].
  destruct err as [e|]; [left; split; [discriminate|symmetry; exact Hr]|].
  right.
  apply bind_Returns in Hr. destruct Hr as (other & Hother & Hr).
  destruct other; [left; split; [reflexivity|symmetry; exact Hr]|].
  apply bind_Returns in Hr.
  destruct Hr as ([[[hdr1 Options] client1] err1] & Hsw & Hr).
  destruct err1 as [e|]; [left; split; [reflexivity|symmetry; exact Hr]|].
  right. split; [reflexivity|]. split.
  - destruct (msgType =? 1) eqn:Em; simpl in Hother.
    + left. apply Z.eqb_eq. exact Em.
    + right. apply bind_Returns in Hother. destruct Hother as (si & Hsi & Hother).
      exists si. split; [exact Hsi|].
      assert (Hb : bool_decide (SIAddr rcvHdr <> si) = false) by congruence.
      apply bool_decide_eq_false in Hb.
      destruct (decide (SIAddr rcvHdr = si)); [assumption|contradiction].
  - eauto.
Qed.

(** What [parseDHCP] with the callback of [HandleUDP] can do to the client
    record, whether or not it reports an error. *)
Lemma parseDHCP_visit_inv (incpayload : slice) (client client' : dhcpclient)
    (msgType' : Z) (rcvHdr : DHCPHeader) (err : option error) :
  parseDHCP incpayload (Some visitOption) (client, 0)
  = Returns (rcvHdr, err, (client', msgType')) ->
  (err = None
   \/ (err = Some "short payload to parse DHCP"%string
       /\ len incpayload < SizeDHCPHeader)
   \/ err = Some "short payload to parse DHCP options"%string)
  /\ state client' = state client
  /\ port client' = port client
  /\ (length (requestlist client) = 10%nat -> length (requestlist client') = 10%nat)
  /\ (state client <> dhcpStateNone -> addr client' = addr client)
  /\ (addr client' = addr client \/ exists b, addr client' = AddrV4 b).
Proof.
  unfold parseDHCP.
  destruct (len incpayload <? SizeDHCPHeader) eqn:E1.
  { apply Z.ltb_lt in E1. intros Hr; inversion Hr; subst; repeat split; auto. }
  destruct (_ >=? len incpayload);
    [intros Hr; inversion Hr; subst; repeat split; auto|].
  intros Hr. apply bind_Returns in Hr. destruct Hr as ([[c1 m1] e1] & Hscan & Hr).
  inversion Hr; subst. apply scanOptions_visit_inv in Hscan.
  destruct Hscan as (He & Hrest). split; [left; exact He|exact Hrest].
Qed.

(** X10. The errors of [HandleUDP].  A returned error is one of three: the
    response buffer is shorter than a DHCP message, the pending payload is
    shorter than the fixed header, or it ends before the first option; each
    comes with 0 bytes written.  A message that is out of order for the
    client's state, or meant for another server, never surfaces as an error.
    With no packet pending and a long enough buffer the call returns 0 bytes
    and no error without touching anything. *)
Theorem HandleUDP_errors (d : DHCPServer) (resp : slice) (packet : UDPPacket) :
  (forall r, HandleUDP d resp packet = Returns r ->
     res_err r = None
     \/ (res_n r = 0 /\ len resp < sizeDHCPTotal
         /\ res_err r = Some "short payload to marshall DHCP"%string)
     \/ (res_n r = 0 /\ HasPacket packet = true
         /\ len (Payload packet) < SizeDHCPHeader
         /\ res_err r = Some "short payload to parse DHCP"%string)
     \/ (res_n r = 0 /\ HasPacket packet = true
         /\ res_err r = Some "short payload to parse DHCP options"%string))
  /\ (len resp < sizeDHCPTotal ->
      HandleUDP d resp packet
      = dropped (Some "short payload to marshall DHCP"%string) d resp packet)
  /\ (sizeDHCPTotal <= len resp -> HasPacket packet = false ->
      HandleUDP d resp packet = dropped None d resp packet).
Proof.
  split; [|split].
  - intros r Hr. apply HandleUDP_cases in Hr.
    destruct Hr as [(Hl & Hr) | [(Hl & Hp & Hs & Hr) | [(Hl & Hp & Hr)
                   | (Hl & Hp & Hs & rcvHdr & err & client & msgType & Hparse & Hr)]]].
    + inversion Hr; subst r. right. left. repeat split; auto.
    + inversion Hr; subst r. right. right. left. repeat split; auto.
    + inversion Hr; subst r. left. reflexivity.
    + destruct Hr as [(He & Hr) | [(He & Hr) | (He & _ & hdr1 & Options & client1 & _ & Hr)]].
      * inversion Hr; subst r. simpl.
        apply parseDHCP_visit_inv in Hparse.
        destruct Hparse as ([He' | [(_ & He') | He']] & _); [congruence|lia|].
        right. right. right. repeat split; auto.
      * inversion Hr; subst r. left. reflexivity.
      * apply respond_Returns in Hr. left. tauto.
  - intros Hl. unfold HandleUDP.
    replace (len resp <? sizeDHCPTotal) with true by (symmetry; apply Z.ltb_lt; lia).
    reflexivity.
  - intros Hl Hp. unfold HandleUDP.
    replace (len resp <? sizeDHCPTotal) with false by (symmetry; apply Z.ltb_ge; lia).
    rewrite Hp. reflexivity.
Qed.

Lemma write_at_shape (s : slice) (off : Z) (w : list Z) :
  len (write_at s off w) = len s /\ cap (write_at s off w) = cap s.
Proof.
  destruct s; simpl; [split; reflexivity|]. split; [reflexivity|].
  unfold cap. simpl. rewrite length_overwrite. reflexivity.
Qed.

Lemma zeroFrom_shape (s s' : slice) (from : Z) :
  zeroFrom s from = Returns s' -> len s' = len s /\ cap s' = cap s.
Proof.
  unfold zeroFrom. destruct (from <? len s); [|intros Hr; inversion Hr; auto].
  destruct (from <? 0); [discriminate|]. intros Hr; inversion Hr; subst.
  apply write_at_shape.
Qed.

Lemma PutUint32At_shape (s s' : slice) (ptr v : Z) :
  PutUint32At s ptr v = Returns s' -> len s' = len s /\ cap s' = cap s.
Proof.
  unfold PutUint32At. intros Hr. apply bind_Returns in Hr. destruct Hr as (b & _ & Hr).
  destruct (len b <? 4); [discriminate|]. inversion Hr; subst. apply write_at_shape.
Qed.

Lemma storeByte_shape (s s' : slice) (ptr b : Z) :
  storeByte s ptr b = Returns s' -> len s' = len s /\ cap s' = cap s.
Proof.
  unfold storeByte. destruct ((0 <=? ptr) && (ptr <? len s)); [|discriminate].
  intros Hr; inversion Hr; subst. apply write_at_shape.
Qed.

Lemma encodeOptions_shape (Options : list dhcpOption) :
  forall (s s' : slice) (ptr ptr' : Z),
    encodeOptions s ptr Options = Returns (s', ptr') -> len s' = len s /\ cap s' = cap s.
Proof.
  induction Options as [|opt rest IH]; intros s s' ptr ptr'; simpl.
  - intros Hr; inversion Hr; auto.
  - intros Hr. apply bind_Returns in Hr. destruct Hr as (dst & _ & Hr).
    apply bind_Returns in Hr. destruct Hr as (r & _ & Hr).
    apply IH in Hr. destruct (write_at_shape s ptr r.1) as [Hl Hc].
    rewrite Hl, Hc in Hr. exact Hr.
Qed.

(** What building a response does besides storing the record: the buffer
    keeps its length and capacity, a full frame fits the capacity, and the
    packet keeps its receive time and data. *)
Lemma respond_shape (d : DHCPServer) (resp : slice) (packet : UDPPacket)
    (mac : list Z) (client : dhcpclient) (rcvHdr : DHCPHeader)
    (Options : list dhcpOption) (r : UDPResult) :
  respond d resp packet mac client rcvHdr Options = Returns r ->
  len (res_resp r) = len resp /\ cap (res_resp r) = cap resp
  /\ dhcpOffset + sizeDHCPTotal <= cap resp
  /\ Rx (res_packet r) = Rx packet /\ data (res_packet r) = data packet
  /\ res_server r = set_hosts d (<[mac := client]> (hosts d)).
Proof.
  unfold respond. intros Hr.
  apply bind_Returns in Hr. destruct Hr as (resp1 & H1' & Hr).
  apply bind_Returns in Hr. destruct Hr as (view & _ & Hr).
  apply bind_Returns in Hr. destruct Hr as (resp3 & H3 & Hr).
  apply bind_Returns in Hr. destruct Hr as ([resp4 ptr] & H4 & Hr).
  apply bind_Returns in Hr. destruct Hr as (resp5 & H5 & Hr).
  apply bind_Returns in Hr. destruct Hr as (payload & H6 & Hr).
  apply bind_Returns in Hr. destruct Hr as (packet1 & H7 & Hr).
  inversion Hr; subst r; simpl.
  apply zeroFrom_shape in H1'. apply PutUint32At_shape in H3.
  apply encodeOptions_shape in H4. apply storeByte_shape in H5.
  apply reslice_Returns in H6.
  destruct (write_at_shape resp1 dhcpOffset
              (take (length (elems view)) (DHCPHeaderPut rcvHdr (elems view)))) as [Wl Wc].
  destruct (write_at_shape resp5 0
              (take (length (elems resp5)) (PutHeaders packet1 (elems resp5)))) as [Vl Vc].
  unfold setResponseUDP in H7. apply bind_Returns in H7. destruct H7 as (src & _ & H7).
  inversion H7; subst packet1; simpl.
  repeat split; try reflexivity; try lia; congruence.
Qed.

(** X11. What [HandleUDP] does to the server.  Its address, MAC and port
    never change, and no record other than the sender's is touched.  When a
    response is written the sender's record is stored: its state is what it
    was or has gone from None to WaitOffer (and then the port is the
    sender's UDP port); a client that was not in state None keeps state,
    address and port; and the address is what it was or an IPv4 address. *)
Theorem HandleUDP_hosts_frame (d : DHCPServer) (resp : slice) (packet : UDPPacket)
    (r : UDPResult) :
  HandleUDP d resp packet = Returns r ->
  mac (res_server r) = mac d /\ siaddr (res_server r) = siaddr d
  /\ sport (res_server r) = sport d
  /\ (forall m, m <> Source (Eth packet) ->
        hosts (res_server r) !! m = hosts d !! m)
  /\ (res_n r <> 0 ->
      forall c, c = default dhcpclient_zero (hosts d !! Source (Eth packet)) ->
      exists c', hosts (res_server r) !! Source (Eth packet) = Some c'
        /\ (state c' = state c
            \/ (state c = dhcpStateNone /\ state c' = dhcpStateWaitOffer
                /\ port c' = SourcePort (UDP packet)))
        /\ (state c <> dhcpStateNone ->
            state c' = state c /\ addr c' = addr c /\ port c' = port c)
        /\ (length (requestlist c) = 10%nat -> length (requestlist c') = 10%nat)
        /\ (addr c' = addr c \/ exists b, addr c' = AddrV4 b)).
Proof.
  intros Hr. apply HandleUDP_cases in Hr.
  assert (Hdrop : forall e, Returns r = dropped e d resp packet ->
                  res_server r = d /\ res_n r = 0).
  { intros e He. inversion He; subst r. split; reflexivity. }
  destruct Hr as [(_ & Hr) | [(_ & _ & _ & Hr) | [(_ & _ & Hr)
                 | (_ & _ & _ & rcvHdr & err & client & msgType & Hparse & Hr)]]];
    try (apply Hdrop in Hr; destruct Hr as [-> Hn]; repeat split; auto; congruence).
  destruct Hr as [(_ & Hr) | [(_ & Hr) | (He & _ & hdr1 & Options & client1 & Hsw & Hr)]];
    try (apply Hdrop in Hr; destruct Hr as [-> Hn]; repeat split; auto; congruence).
  apply respond_shape in Hr. destruct Hr as (_ & _ & _ & _ & _ & Hs).
  rewrite Hs. simpl. repeat split; auto.
  - intros m Hm. apply lookup_insert_ne. congruence.
  - intros _ c Hc. exists client1. split; [apply lookup_insert_eq|].
    apply parseDHCP_visit_inv in Hparse. rewrite <- Hc in Hparse.
    destruct Hparse as (_ & Hst & Hpt & Hrl & Had & Hav).
    apply dispatchType_no_error in Hsw.
    destruct Hsw as [(_ & Hnone & -> & _) | [(_ & _ & -> & _) | (_ & _ & -> & _)]];
      simpl.
    + split; [right; repeat split; congruence|].
      split; [intros Hx; congruence|]. split; assumption.
    + split; [left; assumption|]. split; [|split; assumption].
      intros Hx. repeat split; auto.
    + split; [left; assumption|]. split; [|split; assumption].
      intros Hx. repeat split; auto.
Qed.

(** X12. What [HandleUDP] does to its two arguments.  The response buffer
    keeps its length and capacity and the packet keeps its receive time and
    data.  A non-zero result is always the size of a full frame (the three
    headers and a DHCP message), it comes only when the buffer is at least a
    DHCP message long, and it never exceeds the capacity of the buffer. *)
Theorem HandleUDP_buffer_shape (d : DHCPServer) (resp : slice) (packet : UDPPacket)
    (r : UDPResult) :
  HandleUDP d resp packet = Returns r ->
  len (res_resp r) = len resp /\ cap (res_resp r) = cap resp
  /\ Rx (res_packet r) = Rx packet /\ data (res_packet r) = data packet
  /\ (res_n r <> 0 ->
      res_n r = dhcpOffset + sizeDHCPTotal /\ res_n r <= cap resp
      /\ sizeDHCPTotal <= len resp /\ res_err r = None).
Proof.
  intros Hr. apply HandleUDP_cases in Hr.
  assert (Hdrop : forall e, Returns r = dropped e d resp packet ->
                  res_resp r = resp /\ res_packet r = packet /\ res_n r = 0).
  { intros e He. inversion He; subst r. repeat split. }
  destruct Hr as [(_ & Hr) | [(_ & _ & _ & Hr) | [(_ & _ & Hr)
                 | (Hl & _ & _ & rcvHdr & err & client & msgType & Hparse & Hr)]]];
    try (apply Hdrop in Hr; destruct Hr as (-> & -> & Hn); repeat split; auto; congruence).
  destruct Hr as [(_ & Hr) | [(_ & Hr) | (He & _ & hdr1 & Options & client1 & Hsw & Hr)]];
    try (apply Hdrop in Hr; destruct Hr as (-> & -> & Hn); repeat split; auto; congruence).
  pose proof (respond_Returns _ _ _ _ _ _ _ _ Hr) as (Hn & Herr & _).
  apply respond_shape in Hr. destruct Hr as (H1' & H2' & H3 & H4 & H5 & _).
  repeat split; auto; lia.
Qed.

(** The response [HandleUDP] builds, byte by byte, when the two writers of
    the imported packages keep to their regions: [PutHeaders] leaves the
    buffer from [dhcpOffset] on as it is, and [Put] of the header writes its
    encoding [enc] over the first [SizeDHCPHeader] bytes and nothing else. *)
Lemma respond_frame (d : DHCPServer) (resp : slice) (packet : UDPPacket)
    (mac : list Z) (client : dhcpclient) (hdr : DHCPHeader) (tag v : Z)
    (si enc : list Z) :
  0 <= SizeEthernetHeader -> 0 <= SizeIPv4Header -> 0 <= SizeUDPHeader ->
  14 <= SizeDHCPHeader ->
  dhcpOffset + sizeDHCPTotal <= len resp ->
  len resp <= cap resp ->
  As4 (siaddr d) = Returns si ->
  (forall p b, drop (Z.to_nat dhcpOffset) (PutHeaders p b) = drop (Z.to_nat dhcpOffset) b) ->
  length enc = Z.to_nat SizeDHCPHeader ->
  (forall b, (Z.to_nat SizeDHCPHeader <= length b)%nat ->
     DHCPHeaderPut hdr b = enc ++ drop (Z.to_nat SizeDHCPHeader) b) ->
  exists r,
    respond d resp packet mac client hdr [ {| Opt := tag; Data := Slice [v] 1 |} ]
      = Returns r
    /\ drop (Z.to_nat dhcpOffset) (elems (res_resp r))
       = enc ++ replicate 192 0 ++ [99; 130; 83; 99] ++ [tag; 1; v] ++ [255]
         ++ replicate (Z.to_nat (len resp - optionsStart - 8)) 0
    /\ Destination (Eth (res_packet r)) = BroadcastHW6
    /\ IPSource (IP (res_packet r)) = si
    /\ IPDestination (IP (res_packet r)) = [0; 0; 0; 0]
    /\ Protocol (IP (res_packet r)) = 17
    /\ TotalLength (IP (res_packet r)) = wrap16 (20 + SizeUDPHeader + wrap16 sizeDHCPTotal)
    /\ SourcePort (UDP (res_packet r)) = sport d
    /\ DestinationPort (UDP (res_packet r)) = port client.
Proof.
  intros He Hi Hu Hd Hlen Hcap Hsi Hput Henc Hhdr.
  assert (Hoff : 0 <= dhcpOffset) by (unfold dhcpOffset; lia).
  assert (Htot : sizeDHCPTotal = SizeDHCPHeader + 504)
    by (unfold sizeDHCPTotal, sizeSName, sizeFILE, sizeOptions; lia).
  assert (Hopt : optionsStart = dhcpOffset + SizeDHCPHeader + 192)
    by (unfold optionsStart, sizeSName, sizeFILE; lia).
  destruct resp as [|st n]; [cbn [len] in Hlen; lia|].
  unfold cap in Hcap. cbn [len store_of] in Hlen, Hcap.
  pose proof (frame_bytes st enc [tag; 1; v] (Z.to_nat dhcpOffset)
                (Z.to_nat SizeDHCPHeader) (Z.to_nat n) (DHCPHeaderPut hdr)
                ltac:(lia) ltac:(lia) ltac:(lia) Henc eq_refl Hhdr) as Hfb.
  cbv zeta in Hfb.
  unfold respond, zeroFrom. cbn [len].
  replace (dhcpOffset + 14 <? n) with true by (symmetry; apply Z.ltb_lt; lia).
  replace (dhcpOffset + 14 <? 0) with false by (symmetry; apply Z.ltb_ge; lia).
  cbn [mbind outcome_mbind outcome_bind write_at].
  replace (Z.to_nat (dhcpOffset + 14)) with (Z.to_nat dhcpOffset + 14)%nat by lia.
  replace (Z.to_nat (n - (dhcpOffset + 14)))
    with (Z.to_nat n - (Z.to_nat dhcpOffset + 14))%nat by lia.
  set (st1 := overwrite st _ _) in *.
  assert (L1 : length st1 = length st) by apply length_overwrite.
  cbn [len]. rewrite reslice_Slice by lia.
  cbn [mbind outcome_mbind outcome_bind write_at].
  rewrite !elems_Slice.
  replace (Z.to_nat (n - dhcpOffset)) with (Z.to_nat n - Z.to_nat dhcpOffset)%nat by lia.
  set (st2 := overwrite st1 _ _) in *.
  assert (L2 : length st2 = length st) by (unfold st2; rewrite length_overwrite; exact L1).
  unfold PutUint32At. cbn [len].
  rewrite reslice_Slice by lia.
  cbn [mbind outcome_mbind outcome_bind write_at len].
  replace (n - optionsStart <? 4) with false by (symmetry; apply Z.ltb_ge; lia).
  change [Z.land (Z.shiftr 1669485411 24) 255; Z.land (Z.shiftr 1669485411 16) 255;
          Z.land (Z.shiftr 1669485411 8) 255; Z.land 1669485411 255]
    with [99; 130; 83; 99].
  replace (Z.to_nat optionsStart)
    with (Z.to_nat dhcpOffset + Z.to_nat SizeDHCPHeader + 192)%nat by lia.
  set (st3 := overwrite st2 _ _) in *.
  assert (L3 : length st3 = length st) by (unfold st3; rewrite length_overwrite; exact L2).
  cbn [mbind outcome_mbind outcome_bind encodeOptions len].
  rewrite reslice_Slice by lia.
  cbn [mbind outcome_mbind outcome_bind].
  unfold encodeDHCPOption. cbn [Data Opt len].
  replace (n - (optionsStart + 4) <? 1 + 2) with false by (symmetry; apply Z.ltb_ge; lia).
  cbn [mbind outcome_mbind outcome_bind fst snd write_at].
  change (wrap8 1) with 1. change (elems (Slice [v] 1)) with [v].
  replace (Z.to_nat (optionsStart + 4))
    with (Z.to_nat dhcpOffset + Z.to_nat SizeDHCPHeader + 192 + 4)%nat by lia.
  set (st4 := overwrite st3 _ _) in *.
  assert (L4 : length st4 = length st) by (unfold st4; rewrite length_overwrite; exact L3).
  unfold storeByte. cbn [len].
  replace ((0 <=? optionsStart + 4 + (2 + 1)) && (optionsStart + 4 + (2 + 1) <? n))
    with true by (symmetry; rewrite andb_true_iff, Z.leb_le, Z.ltb_lt; lia).
  cbn [mbind outcome_mbind outcome_bind write_at].
  replace (Z.to_nat (optionsStart + 4 + (2 + 1)))
    with (Z.to_nat dhcpOffset + Z.to_nat SizeDHCPHeader + 192 + 7)%nat by lia.
  set (st5 := overwrite st4 _ _) in *.
  assert (L5 : length st5 = length st) by (unfold st5; rewrite length_overwrite; exact L4).
  rewrite reslice_Slice by lia.
  cbn [mbind outcome_mbind outcome_bind].
  unfold setResponseUDP. cbn [siaddr set_hosts]. rewrite Hsi.
  cbn [mbind outcome_mbind outcome_bind].
  eexists. split; [reflexivity|].
  cbn [res_resp res_packet Eth IP UDP Destination IPSource IPDestination Protocol
       TotalLength SourcePort DestinationPort sport set_hosts len write_at].
  split.
  - unfold elems. cbn [len store_of].
    set (E5 := take (Z.to_nat n) st5).
    set (X := PutHeaders _ E5).
    assert (HE5 : length E5 = Z.to_nat n) by (unfold E5; rewrite length_take; lia).
    assert (HX : drop (Z.to_nat dhcpOffset) X = drop (Z.to_nat dhcpOffset) E5) by apply Hput.
    assert (LX : length X = Z.to_nat n).
    { apply (f_equal length) in HX. rewrite !length_drop in HX. lia. }
    rewrite (take_ge X) by lia.
    rewrite overwrite_prefix by lia.
    rewrite take_app_length' by (rewrite LX; reflexivity).
    rewrite HX. unfold E5. rewrite Hfb.
    replace (take (Z.to_nat n) _) with
      (take (Z.to_nat dhcpOffset) st ++ enc ++ replicate 192 0 ++ [99; 130; 83; 99]
       ++ [tag; 1; v] ++ [255]
       ++ replicate (Z.to_nat n - (Z.to_nat dhcpOffset + Z.to_nat SizeDHCPHeader + 192) - 8) 0).
    + rewrite drop_app_length' by (rewrite length_take; lia).
      repeat f_equal. lia.
    + symmetry.
      rewrite !app_assoc. rewrite take_app_length'; [reflexivity|].
      rewrite !length_app, length_take, !length_replicate, Henc. simpl. lia.
  - repeat split; try reflexivity.
    f_equal. f_equal. f_equal. f_equal. lia.
Qed.

Lemma next_not_zero (d : DHCPServer) (requested : list Z) :
  next d requested <> [0; 0; 0; 0]
  /\ (requested <> [0; 0; 0; 0] -> next d requested = requested)
  /\ (requested = [0; 0; 0; 0] -> next d requested = [192; 168; 1; 2]).
Proof.
  unfold next. destruct (bool_decide (requested <> [0; 0; 0; 0])) eqn:E.
  - apply bool_decide_eq_true in E. repeat split; auto. contradiction.
  - apply bool_decide_eq_false in E. repeat split; try discriminate; auto.
    intros Hx. contradiction.
Qed.

(** X13. Discover to Offer.  A Discover that parses without error from a
    client in state None whose record holds an IPv4 address is answered when
    the buffer holds a full frame: the result is the frame size with no
    error, and the record is stored in state WaitOffer with the sender's UDP
    port and its address kept.  The address offered is the requested one, or
    192.168.1.2 if that is 0.0.0.0, so it is never 0.0.0.0.  When
    [PutHeaders] writes only before [dhcpOffset] and [Put] writes the
    encoding [enc] of the header over the first [SizeDHCPHeader] bytes and
    nothing else, the response from [dhcpOffset] on is: the encoding of the
    received header with [YIAddr] the offered address and [SIAddr] the
    server's, 192 zero bytes, the magic cookie, the option Message-Type with
    length 1 and value 2, the end mark 255, and zeros up to the end of the
    buffer.  The headers of the packet are those of a broadcast from the
    server's address and port to the sender's UDP port: protocol 17, a zero
    destination address, and the total length of a DHCP message with its IP
    and UDP headers. *)
Theorem HandleUDP_discover_offer (d : DHCPServer) (resp : slice) (packet : UDPPacket)
    (rcvHdr : DHCPHeader) (client : dhcpclient) (requested offered si enc : list Z) :
  0 <= SizeEthernetHeader -> 0 <= SizeIPv4Header -> 0 <= SizeUDPHeader ->
  14 <= SizeDHCPHeader ->
  dhcpOffset + sizeDHCPTotal <= len resp ->
  len resp <= cap resp ->
  HasPacket packet = true ->
  parseDHCP (Payload packet) (Some visitOption)
            (default dhcpclient_zero (hosts d !! Source (Eth packet)), 0)
    = Returns (rcvHdr, None, (client, 1)) ->
  state client = dhcpStateNone ->
  As4 (addr client) = Returns requested ->
  As4 (siaddr d) = Returns si ->
  (requested <> [0; 0; 0; 0] -> offered = requested) ->
  (requested = [0; 0; 0; 0] -> offered = [192; 168; 1; 2]) ->
  (forall p b, drop (Z.to_nat dhcpOffset) (PutHeaders p b) = drop (Z.to_nat dhcpOffset) b) ->
  length enc = Z.to_nat SizeDHCPHeader ->
  (forall b, (Z.to_nat SizeDHCPHeader <= length b)%nat ->
     DHCPHeaderPut {| YIAddr := offered; SIAddr := si; OtherFields := OtherFields rcvHdr |} b
     = enc ++ drop (Z.to_nat SizeDHCPHeader) b) ->
  exists r,
    HandleUDP d resp packet = Returns r
    /\ res_n r = dhcpOffset + sizeDHCPTotal /\ res_err r = None
    /\ hosts (res_server r) !! Source (Eth packet)
       = Some {| addr := addr client; state := dhcpStateWaitOffer;
                 port := SourcePort (UDP packet); requestlist := requestlist client |}
    /\ offered <> [0; 0; 0; 0]
    /\ drop (Z.to_nat dhcpOffset) (elems (res_resp r))
       = enc ++ replicate 192 0 ++ [99; 130; 83; 99] ++ [DHCP_MessageType; 1; 2] ++ [255]
         ++ replicate (Z.to_nat (len resp - optionsStart - 8)) 0
    /\ Destination (Eth (res_packet r)) = BroadcastHW6
    /\ IPSource (IP (res_packet r)) = si
    /\ IPDestination (IP (res_packet r)) = [0; 0; 0; 0]
    /\ Protocol (IP (res_packet r)) = 17
    /\ TotalLength (IP (res_packet r)) = wrap16 (20 + SizeUDPHeader + wrap16 sizeDHCPTotal)
    /\ SourcePort (UDP (res_packet r)) = sport d
    /\ DestinationPort (UDP (res_packet r)) = SourcePort (UDP packet).
Proof.
  intros He Hi Hu Hd Hlen Hcap Hhas Hparse Hst Hreq Hsi Hsame Hzero Hput Henc Hhdr.
  assert (Htot : sizeDHCPTotal <= len resp) by (unfold dhcpOffset in Hlen; lia).
  pose proof (HandleUDP_discover d resp packet rcvHdr client requested si
                Htot Hhas Hparse Hst Hreq Hsi) as Heq.
  fold (next d requested) in Heq.
  destruct (next_not_zero d requested) as (Hnz & Hn1 & Hn2).
  assert (Hoff : next d requested = offered).
  { destruct (decide (requested = [0; 0; 0; 0])) as [Hz|Hz].
    - rewrite (Hn2 Hz), (Hzero Hz). reflexivity.
    - rewrite (Hn1 Hz), (Hsame Hz). reflexivity. }
  rewrite Hoff in Heq, Hnz.
  destruct (respond_frame d resp packet (Source (Eth packet))
              {| addr := addr client; state := dhcpStateWaitOffer;
                 port := SourcePort (UDP packet); requestlist := requestlist client |}
              {| YIAddr := offered; SIAddr := si; OtherFields := OtherFields rcvHdr |}
              DHCP_MessageType 2 si enc He Hi Hu Hd Hlen Hcap Hsi Hput Henc Hhdr)
    as (r & Hr & Hbytes & Hpkt).
  exists r.
  pose proof (respond_Returns _ _ _ _ _ _ _ _ Hr) as (Hn & Herr & Hh).
  split; [rewrite Heq; exact Hr|]. split; [exact Hn|]. split; [exact Herr|].
  split; [rewrite Hh; apply lookup_insert_eq|]. split; [exact Hnz|].
  split; [exact Hbytes|]. exact Hpkt.
Qed.

(** X14. Request to Ack.  A Request that names this server, from a client
    whose record is in state WaitOffer, is answered when the buffer holds a
    full frame: the result is the frame size with no error, and the record
    stays in state WaitOffer with its address and port.  When [PutHeaders]
    writes only before [dhcpOffset] and [Put] writes the encoding [enc] of
    the header over the first [SizeDHCPHeader] bytes and nothing else, the
    response from [dhcpOffset] on is: the encoding of the received header as
    it is, 192 zero bytes, the magic cookie, the option Message-Type with
    length 1 and value 5, the end mark 255, and zeros up to the end of the
    buffer.  The headers of the packet are those of a broadcast from the
    server's address and port to the port stored in the record: protocol 17,
    a zero destination address, and the total length of a DHCP message with
    its IP and UDP headers. *)
Theorem HandleUDP_request_ack (d : DHCPServer) (resp : slice) (packet : UDPPacket)
    (rcvHdr : DHCPHeader) (c client : dhcpclient) (si enc : list Z) :
  0 <= SizeEthernetHeader -> 0 <= SizeIPv4Header -> 0 <= SizeUDPHeader ->
  14 <= SizeDHCPHeader ->
  dhcpStateWaitOffer <> dhcpStateNone ->
  dhcpOffset + sizeDHCPTotal <= len resp ->
  len resp <= cap resp ->
  HasPacket packet = true ->
  hosts d !! Source (Eth packet) = Some c ->
  state c = dhcpStateWaitOffer ->
  parseDHCP (Payload packet) (Some visitOption) (c, 0)
    = Returns (rcvHdr, None, (client, 3)) ->
  As4 (siaddr d) = Returns si ->
  SIAddr rcvHdr = si ->
  (forall p b, drop (Z.to_nat dhcpOffset) (PutHeaders p b) = drop (Z.to_nat dhcpOffset) b) ->
  length enc = Z.to_nat SizeDHCPHeader ->
  (forall b, (Z.to_nat SizeDHCPHeader <= length b)%nat ->
     DHCPHeaderPut rcvHdr b = enc ++ drop (Z.to_nat SizeDHCPHeader) b) ->
  exists r,
    HandleUDP d resp packet = Returns r
    /\ res_n r = dhcpOffset + sizeDHCPTotal /\ res_err r = None
    /\ hosts (res_server r) !! Source (Eth packet) = Some client
    /\ state client = dhcpStateWaitOffer
    /\ addr client = addr c /\ port client = port c
    /\ drop (Z.to_nat dhcpOffset) (elems (res_resp r))
       = enc ++ replicate 192 0 ++ [99; 130; 83; 99] ++ [DHCP_MessageType; 1; 5] ++ [255]
         ++ replicate (Z.to_nat (len resp - optionsStart - 8)) 0
    /\ Destination (Eth (res_packet r)) = BroadcastHW6
    /\ IPSource (IP (res_packet r)) = si
    /\ IPDestination (IP (res_packet r)) = [0; 0; 0; 0]
    /\ Protocol (IP (res_packet r)) = 17
    /\ TotalLength (IP (res_packet r)) = wrap16 (20 + SizeUDPHeader + wrap16 sizeDHCPTotal)
    /\ SourcePort (UDP (res_packet r)) = sport d
    /\ DestinationPort (UDP (res_packet r)) = port c.
Proof.
  intros He Hi Hu Hd Hdiff Hlen Hcap Hhas Hc Hst Hparse Hsi Hsame Hput Henc Hhdr.
  pose proof (parseDHCP_visit_inv _ _ _ _ _ _ Hparse) as (_ & Hs & Hp & _ & Ha & _).
  assert (Hst' : state client = dhcpStateWaitOffer) by congruence.
  assert (Heq : HandleUDP d resp packet
                = respond d resp packet (Source (Eth packet)) client rcvHdr
                    [ {| Opt := DHCP_MessageType; Data := Slice [5] 1 |} ]).
  { unfold HandleUDP.
    replace (len resp <? sizeDHCPTotal) with false
      by (symmetry; apply Z.ltb_ge; unfold dhcpOffset in Hlen; lia).
    rewrite Hc. cbn [default].
    rewrite (parseDHCP_no_error_len _ _ _ _ _ Hparse), Hhas. simpl.
    rewrite Hparse. simpl. rewrite Hsi. simpl.
    rewrite bool_decide_eq_false_2 by (intros Hx; apply Hx; exact Hsame).
    unfold dispatchType. simpl. rewrite Hst', Z.eqb_refl. reflexivity. }
  destruct (respond_frame d resp packet (Source (Eth packet)) client rcvHdr
              DHCP_MessageType 5 si enc He Hi Hu Hd Hlen Hcap Hsi Hput Henc Hhdr)
    as (r & Hr & Hbytes & Hb & Hs1 & Hd1 & Hpr & Htl & Hsp & Hdp).
  exists r.
  pose proof (respond_Returns _ _ _ _ _ _ _ _ Hr) as (Hn & Herr & Hh).
  split; [rewrite Heq; exact Hr|]. split; [exact Hn|]. split; [exact Herr|].
  split; [rewrite Hh; apply lookup_insert_eq|]. split; [exact Hst'|].
  split; [apply Ha; congruence|]. split; [exact Hp|].
  split; [exact Hbytes|]. rewrite <- Hp. repeat split; assumption.
Qed.

Lemma overwrite_all (st w : list Z) :
  length w = length st -> overwrite st 0 w = w.
Proof.
  intros Hl. unfold overwrite. simpl. rewrite Nat.sub_0_r, <- Hl.
  rewrite firstn_all, Hl, drop_all, app_nil_r. reflexivity.
Qed.

(** X15. The headers [setResponseUDP] fills in.  It panics exactly when the
    server's address has no 4-byte form.  Otherwise the receive time and data
    of the packet are kept; the frame is a broadcast from the server's MAC;
    the IP header has the server's address as source, a zero destination,
    protocol 17, TTL 64, header length 5, ToS 192, no flags; the UDP ports
    are the server's and the client's; when nothing overflows 16 bits the IP
    total length is 20 plus the UDP header plus the payload and the UDP
    length is the UDP header plus the payload; and the IP checksum is the one
    computed before ToS and flags are assigned. *)
Theorem setResponseUDP_spec (d : DHCPServer) (clientport : Z) (packet : UDPPacket)
    (payload : slice) :
  (setResponseUDP d clientport packet payload = Panics <-> As4 (siaddr d) = Panics)
  /\ (forall si, As4 (siaddr d) = Returns si ->
      exists p, setResponseUDP d clientport packet payload = Returns p
        /\ Rx p = Rx packet /\ data p = data packet
        /\ Destination (Eth p) = BroadcastHW6
        /\ (length (mac d) = length (Source (Eth packet)) -> Source (Eth p) = mac d)
        /\ IPSource (IP p) = si /\ IPDestination (IP p) = [0; 0; 0; 0]
        /\ Protocol (IP p) = 17 /\ TTL (IP p) = 64 /\ VersionAndIHL (IP p) = 5
        /\ ToS (IP p) = 192 /\ Flags (IP p) = 0
        /\ ID (IP p) = prand16 (ID (IP packet))
        /\ SourcePort (UDP p) = sport d /\ DestinationPort (UDP p) = clientport
        /\ (0 <= SizeUDPHeader -> 0 <= len payload ->
            20 + SizeUDPHeader + len payload < 65536 ->
            TotalLength (IP p) = 20 + SizeUDPHeader + len payload
            /\ Length (UDP p) = SizeUDPHeader + len payload)
        /\ Checksum (IP p)
           = CalculateChecksum
               {| VersionAndIHL := 5; ToS := ToS (IP packet);
                  TotalLength := TotalLength (IP p); ID := ID (IP p);
                  Flags := Flags (IP packet); TTL := 64; Protocol := 17;
                  Checksum := Checksum (IP packet); IPSource := si;
                  IPDestination := [0; 0; 0; 0] |}).
Proof.
  unfold setResponseUDP. split.
  - destruct (As4 (siaddr d)); simpl; split; congruence.
  - intros si Hsi. rewrite Hsi. cbn [mbind outcome_mbind outcome_bind].
    eexists. split; [reflexivity|]. simpl.
    repeat split; try reflexivity.
    + intros Hl. apply overwrite_all. exact Hl.
    + unfold wrap16. rewrite (Z.mod_small (len payload)) by lia.
      rewrite Z.mod_small by lia. lia.
    + unfold wrap16. rewrite (Z.mod_small (len payload)) by lia.
      rewrite (Z.mod_small (4 * 5 + SizeUDPHeader + len payload)) by lia.
      rewrite Z.mod_small by lia. lia.
Qed.

End stacks_more.

Section stacks_ends.
Import stacks.
Context `{TimeAPI} `{EthAPI} `{!StacksDecls}.

(** X16. The option loop ends.  On any buffer of bytes, [parseDHCP] with a
    callback that ends either returns or panics: every round of the loop moves
    the read position forward by at least two, so the scan cannot go on for
    ever; in particular with the callback of [HandleUDP], whatever the
    bytes. *)
Theorem parseDHCP_always_ends {S : Type} (incpayload : slice)
    (fn : dhcpOption -> S -> outcome (S * option error)) (st : S)
    (client : dhcpclient) (msgType : Z) :
  bytes_ok incpayload ->
  (forall opt st', fn opt st' <> Unfinished) ->
  (parseDHCP incpayload (Some fn) st = Panics
   \/ exists v, parseDHCP incpayload (Some fn) st = Returns v)
  /\ (parseDHCP incpayload (Some visitOption) (client, msgType) = Panics
      \/ exists v, parseDHCP incpayload (Some visitOption) (client, msgType) = Returns v).
Proof.
  intros Hbytes Hfn. split.
  - destruct (parseDHCP incpayload (Some fn) st) as [v| |] eqn:E; [eauto|auto|].
    exfalso. revert E. apply parseDHCP_finishes; [exact Hbytes|].
    intros f opt st' Hf. inversion Hf; subst f. apply Hfn.
  - destruct (parseDHCP incpayload (Some visitOption) (client, msgType)) as [v| |] eqn:E;
      [eauto|auto|].
    exfalso. revert E. apply parseDHCP_finishes; [exact Hbytes|].
    intros f opt st' Hf. inversion Hf; subst f. apply visitOption_not_Unfinished.
Qed.

End stacks_ends.

(** ** The further theorems with hypotheses, at sample inputs *)

(** X2 at a packet with 4 bytes of IP options and 4 of TCP options: the views
    are bytes 0-4, 4-8 and 8-12 of [data]. *)
Lemma views_tile_data_witness :
  exists ipOpts tcpOpts payload,
    stack.IPOptions (sample.tcpPacketIPOptions 5) = Returns ipOpts
    /\ stack.TCPOptions (sample.tcpPacketIPOptions 5) = Returns tcpOpts
    /\ stack.Payload (sample.tcpPacketIPOptions 5) = Returns payload
    /\ elems ipOpts ++ elems tcpOpts ++ elems payload
       = [1; 1; 1; 0; 2; 4; 5; 180; 104; 101; 108; 111]
    /\ len ipOpts = 4 /\ len tcpOpts = 4 /\ len payload = 4.
Proof.
  destruct (@views_tile_data refTime refSeqs refEth refStack (sample.tcpPacketIPOptions 5)
              ltac:(vm_compute; reflexivity) ltac:(vm_compute; discriminate))
    as (ipOpts & tcpOpts & payload & Hi & Ht & Hp & Htile & Hli & Hlt & Hlp & _).
  exists ipOpts, tcpOpts, payload.
  split; [exact Hi|]. split; [exact Ht|]. split; [exact Hp|].
  split; [rewrite Htile; vm_compute; reflexivity|].
  split; [rewrite Hli; reflexivity|]. split; [rewrite Hlt; reflexivity|].
  rewrite Hlp, Hli. reflexivity.
Defined.

(** X4 at a socket holding a real packet that the control block accepts. *)
Lemma HandleEth_real_packet_witness :
  exists r, stack.HandleEth (sample.socket 80 5 1 (Some sample.echo)) sample.dst = Returns r
    /\ stack.res_calls r = [(sample.dst, sample.tcpPacket 5)]
    /\ stack.res_n r = 2
    /\ stack.Rx (stack.packets (stack.res_sock r)) = 0.
Proof.
  destruct (@HandleEth_real_packet refTime refSeqs refEth refStack
              (sample.socket 80 5 1 (Some sample.echo)) sample.dst sample.echo
              (Slice (drop 4 (stack.data (sample.tcpPacket 5))) 4) 1 0 true
              eq_refl ltac:(vm_compute; reflexivity) ltac:(vm_compute; reflexivity)
              ltac:(vm_compute; reflexivity) ltac:(vm_compute; reflexivity))
    as (r & Hr & _ & Hrx & Hok & _).
  destruct (Hok eq_refl) as (Hc & Hn & _).
  exists r. split; [exact Hr|]. split; [exact Hc|]. split; [exact Hn|exact Hrx].
Defined.

(** X6 at an open, empty socket: once forced, it is pending handling and
    holds no real packet. *)
Lemma pending_counts_real_packets_witness :
  stack.IsPendingHandling
    (stack.forceResponse (sample.socket 80 0 1 (Some sample.echo))).2 = true
  /\ stack.pending (stack.forceResponse (sample.socket 80 0 1 (Some sample.echo))).2 = 0.
Proof.
  destruct (@pending_counts_real_packets refTime refSeqs refEth refStack
              (sample.socket 80 0 1 (Some sample.echo)) eq_refl)
    as (_ & _ & _ & _ & Hforced).
  destruct (Hforced ltac:(discriminate) eq_refl) as (Hp & _ & Hn).
  split; [exact Hp|exact Hn].
Defined.

(** X7 at an open, empty socket with a handler that succeeds. *)
Lemma forceResponse_HandleEth_cycle_witness :
  exists r,
    stack.HandleEth (stack.forceResponse (sample.socket 80 0 1 (Some sample.quiet))).2
                    sample.dst = Returns r
    /\ stack.res_n r = 1
    /\ (stack.forceResponse (stack.res_sock r)).1 = true.
Proof.
  destruct (@forceResponse_HandleEth_cycle refTime refSeqs refEth refStack
              (sample.socket 80 0 1 (Some sample.quiet)) sample.dst sample.quiet
              eq_refl eq_refl eq_refl)
    as (r & Hr & _ & Hn & _ & _ & Hagain).
  exists r. split; [exact Hr|]. split; [exact Hn|exact Hagain].
Defined.

(** X8 at a payload with three options and the end mark, in a buffer with two
    more bytes behind it: the callback sees the three options. *)
Lemma parseDHCP_visits_options_witness :
  stacks.parseDHCP
    (Slice (sample.preamble [0; 0; 0; 0] ++ wireOptions sample.threeOptions
            ++ [255] ++ [7; 7]) 255)
    (Some sample.record) []
  = Returns (DecodeDHCPHeader (sample.preamble [0; 0; 0; 0]
                               ++ wireOptions sample.threeOptions ++ [255]),
             None, sample.threeOptions).
Proof.
  etrans.
  - exact (proj1 (@parseDHCP_visits_options refSeqs refEth _ sample.record
                    (sample.preamble [0; 0; 0; 0]) sample.threeOptions [255] [7; 7] []
                    ltac:(vm_compute; reflexivity)
                    ltac:(repeat (constructor; [unfold wireOption; simpl; lia|]);
                          constructor)
                    ltac:(right; right; exists []; reflexivity)
                    ltac:(left; discriminate))).
  - vm_compute. reflexivity.
Defined.

(** X11 at the Discover asking for 10.0.0.9, on a server with no record. *)
Lemma HandleUDP_hosts_frame_witness :
  exists r, stacks.HandleUDP sample.server sample.resp sample.discoverFor9 = Returns r
    /\ stacks.siaddr (stacks.res_server r) = stacks.AddrV4 [192; 168; 1; 1]
    /\ (forall m, m <> [170; 187; 204; 221; 238; 255] ->
          stacks.hosts (stacks.res_server r) !! m = None).
Proof.
  destruct (stacks.HandleUDP sample.server sample.resp sample.discoverFor9)
    as [r| |] eqn:Hr; [|exfalso; vm_compute in Hr; discriminate..].
  destruct (@HandleUDP_hosts_frame refTime refSeqs refEth refStacks _ _ _ _ Hr)
    as (_ & Hsi & _ & Hother & _).
  exists r. split; [reflexivity|]. split; [exact Hsi|].
  intros m Hm. rewrite (Hother m Hm). reflexivity.
Defined.

(** X12 at the Request that follows the offer. *)
Lemma HandleUDP_buffer_shape_witness :
  exists r, stacks.HandleUDP sample.serverOffered sample.resp sample.request = Returns r
    /\ len (stacks.res_resp r) = 600 /\ cap (stacks.res_resp r) = 600
    /\ stacks.res_n r = 590 /\ stacks.res_err r = None.
Proof.
  destruct (stacks.HandleUDP sample.serverOffered sample.resp sample.request)
    as [r| |] eqn:Hr; [|exfalso; vm_compute in Hr; discriminate..].
  destruct (@HandleUDP_buffer_shape refTime refSeqs refEth refStacks _ _ _ _ Hr)
    as (Hl & Hc & _ & _ & Hfull).
  assert (Hn : stacks.res_n r <> 0)
    by (vm_compute in Hr; inversion Hr; subst r; discriminate).
  destruct (Hfull Hn) as (Hsize & _ & _ & Herr).
  exists r. split; [reflexivity|]. split; [exact Hl|]. split; [exact Hc|].
  split; [exact Hsize|exact Herr].
Defined.

(** X13 at the Discover asking for 10.0.0.9: an Offer of 10.0.0.9 from
    192.168.1.1, sent to port 68. *)
Lemma HandleUDP_discover_offer_witness :
  exists r,
    stacks.HandleUDP sample.server sample.resp sample.discoverFor9 = Returns r
    /\ stacks.res_n r = 590
    /\ stacks.hosts (stacks.res_server r) !! [170; 187; 204; 221; 238; 255]
       = Some {| stacks.addr := stacks.AddrV4 [10; 0; 0; 9]; stacks.state := 1;
                 stacks.port := 68; stacks.requestlist := replicate 10 0 |}
    /\ take 8 (drop 58 (elems (stacks.res_resp r))) = [10; 0; 0; 9; 192; 168; 1; 1]
    /\ take 8 (drop 278 (elems (stacks.res_resp r))) = [99; 130; 83; 99; 53; 1; 2; 255]
    /\ IPSource (stacks.IP (stacks.res_packet r)) = [192; 168; 1; 1]
    /\ DestinationPort (stacks.UDP (stacks.res_packet r)) = 68.
Proof.
  destruct (@HandleUDP_discover_offer refTime refSeqs refEth refStacks
              sample.server sample.resp sample.discoverFor9
              (DecodeDHCPHeader (stacks.data sample.discoverFor9))
              {| stacks.addr := stacks.AddrV4 [10; 0; 0; 9]; stacks.state := 0;
                 stacks.port := 0; stacks.requestlist := replicate 10 0 |}
              [10; 0; 0; 9] [10; 0; 0; 9] [192; 168; 1; 1]
              (take 16 (OtherFields (DecodeDHCPHeader (stacks.data sample.discoverFor9)))
               ++ [10; 0; 0; 9] ++ [192; 168; 1; 1]
               ++ drop 16 (OtherFields (DecodeDHCPHeader (stacks.data sample.discoverFor9))))
              ltac:(vm_compute; discriminate) ltac:(vm_compute; discriminate)
              ltac:(vm_compute; discriminate) ltac:(vm_compute; discriminate)
              ltac:(vm_compute; discriminate) ltac:(vm_compute; discriminate)
              ltac:(vm_compute; reflexivity) ltac:(vm_compute; reflexivity)
              eq_refl eq_refl eq_refl
              ltac:(intros _; reflexivity) ltac:(intros Hx; discriminate Hx)
              ltac:(intros p b; reflexivity)
              ltac:(vm_compute; reflexivity)
              ltac:(intros b Hb; apply overwrite_prefix; exact Hb))
    as (r & Hr & Hn & _ & Hh & _ & Hbytes & _ & Hsrc & _ & _ & _ & _ & Hdp).
  exists r. split; [exact Hr|]. split; [exact Hn|]. split; [exact Hh|].
  assert (Hb' : drop 42 (elems (stacks.res_resp r)) = _) by exact Hbytes.
  split; [replace 58%nat with (42 + 16)%nat by reflexivity;
          rewrite <- drop_drop, Hb'; vm_compute; reflexivity|].
  split; [replace 278%nat with (42 + 236)%nat by reflexivity;
          rewrite <- drop_drop, Hb'; vm_compute; reflexivity|].
  split; [exact Hsrc|exact Hdp].
Defined.

(** X14 at the Request that follows the offer: an Ack, the record kept.  The
    header is the Request's own, so its [yiaddr] bytes are the zeros the
    client sent. *)
Lemma HandleUDP_request_ack_witness :
  exists r, stacks.HandleUDP sample.serverOffered sample.resp sample.request = Returns r
    /\ stacks.res_n r = 590
    /\ stacks.hosts (stacks.res_server r) !! [170; 187; 204; 221; 238; 255]
       = Some {| stacks.addr := stacks.AddrV4 [10; 0; 0; 9]; stacks.state := 1;
                 stacks.port := 68; stacks.requestlist := replicate 10 0 |}
    /\ take 8 (drop 58 (elems (stacks.res_resp r))) = [0; 0; 0; 0; 192; 168; 1; 1]
    /\ take 8 (drop 278 (elems (stacks.res_resp r))) = [99; 130; 83; 99; 53; 1; 5; 255]
    /\ IPSource (stacks.IP (stacks.res_packet r)) = [192; 168; 1; 1]
    /\ DestinationPort (stacks.UDP (stacks.res_packet r)) = 68.
Proof.
  destruct (@HandleUDP_request_ack refTime refSeqs refEth refStacks
              sample.serverOffered sample.resp sample.request
              (DecodeDHCPHeader (stacks.data sample.request))
              {| stacks.addr := stacks.AddrV4 [10; 0; 0; 9]; stacks.state := 1;
                 stacks.port := 68; stacks.requestlist := replicate 10 0 |}
              {| stacks.addr := stacks.AddrV4 [10; 0; 0; 9]; stacks.state := 1;
                 stacks.port := 68; stacks.requestlist := replicate 10 0 |}
              [192; 168; 1; 1]
              (take 16 (OtherFields (DecodeDHCPHeader (stacks.data sample.request)))
               ++ [0; 0; 0; 0] ++ [192; 168; 1; 1]
               ++ drop 16 (OtherFields (DecodeDHCPHeader (stacks.data sample.request))))
              ltac:(vm_compute; discriminate) ltac:(vm_compute; discriminate)
              ltac:(vm_compute; discriminate) ltac:(vm_compute; discriminate)
              ltac:(vm_compute; discriminate)
              ltac:(vm_compute; discriminate) ltac:(vm_compute; discriminate)
              ltac:(vm_compute; reflexivity) ltac:(vm_compute; reflexivity)
              eq_refl ltac:(vm_compute; reflexivity) eq_refl
              ltac:(vm_compute; reflexivity)
              ltac:(intros p b; reflexivity)
              ltac:(vm_compute; reflexivity)
              ltac:(intros b Hb; apply overwrite_prefix; exact Hb))
    as (r & Hr & Hn & _ & Hh & _ & _ & _ & Hbytes & _ & Hsrc & _ & _ & _ & _ & Hdp).
  exists r. split; [exact Hr|]. split; [exact Hn|]. split; [exact Hh|].
  assert (Hb' : drop 42 (elems (stacks.res_resp r)) = _) by exact Hbytes.
  split; [replace 58%nat with (42 + 16)%nat by reflexivity;
          rewrite <- drop_drop, Hb'; vm_compute; reflexivity|].
  split; [replace 278%nat with (42 + 236)%nat by reflexivity;
          rewrite <- drop_drop, Hb'; vm_compute; reflexivity|].
  split; [exact Hsrc|exact Hdp].
Defined.

(** X16 at the payload cut short inside a longer buffer. *)
Lemma parseDHCP_always_ends_witness :
  stacks.parseDHCP sample.truncatedInBuffer (Some sample.record) [] = Panics
  \/ exists v, stacks.parseDHCP sample.truncatedInBuffer (Some sample.record) []
               = Returns v.
Proof.
  exact (proj1 (@parseDHCP_always_ends refTime refSeqs refEth refStacks _
                  sample.truncatedInBuffer sample.record [] stacks.dhcpclient_zero 0
                  ltac:(unfold bytes_ok; apply (bool_decide_unpack _); vm_compute; exact I)
                  ltac:(intros opt st'; discriminate))).
Defined.
